(** * Optisol report pipeline: a shallow embedding of the backend services

    The backend is a Flask application that sequences five services
    (document extraction, web search, report synthesis, chart rendering,
    PDF assembly).  Each service is embedded below in a module named after
    its Python class; the functions keep their Python names.

    Python values are dynamically typed, so the embedding works over one
    type [pyval] of values; operations that raise in Python return
    [Raise e] in the error monad [result].  Calls that leave the process
    (HTTP requests, matplotlib, plotly, fpdf, the file system) are
    parameters of the sections that use them, each a function of the
    call's arguments that returns a value or raises: the theorems hold
    for every such outside world.  Logging has no effect on the results
    and is left out, except where a logged expression can itself raise. *)

From Stdlib Require Import String Ascii.
From Stdlib Require Import List ZArith NArith Bool Lia Arith.
From Stdlib Require Import DecimalString.
Import ListNotations.

Set Implicit Arguments.
Set Warnings "-register-all".

(** ** Python strings *)

Module Py.

(** A Python [str] is a sequence of Unicode code points. *)
Definition char := N.
Definition str := list char.

(** [py "abc"] is the Python string written as a Rocq literal. *)
Definition py (s : string) : str := map N_of_ascii (list_ascii_of_string s).

(** [dq] is [py] with every apostrophe read as a double quote, so that JSON
    texts can be written inside Rocq string literals. *)
Definition dq (s : string) : str :=
  map (fun c => if N.eqb c 39 then 34%N else c) (py s).

Fixpoint str_eqb (a b : str) : bool :=
  match a, b with
  | [], [] => true
  | x :: a', y :: b' => N.eqb x y && str_eqb a' b'
  | _, _ => false
  end.

Fixpoint startswith (s prefix : str) : bool :=
  match prefix, s with
  | [], _ => true
  | p :: prefix', c :: s' => N.eqb c p && startswith s' prefix'
  | _ :: _, [] => false
  end.

(** Substring test, [needle in hay] on two strings. *)
Fixpoint contains (hay needle : str) : bool :=
  startswith hay needle ||
  match hay with
  | [] => false
  | _ :: hay' => contains hay' needle
  end.

(** [str.isspace] on one code point (CPython's [Py_UNICODE_ISSPACE]). *)
Definition isspace (c : char) : bool :=
  ((9 <=? c) && (c <=? 13) || (28 <=? c) && (c <=? 32) ||
   (c =? 133) || (c =? 160) || (c =? 5760) ||
   (8192 <=? c) && (c <=? 8202) || (c =? 8232) || (c =? 8233) ||
   (c =? 8239) || (c =? 8287) || (c =? 12288))%N.

Fixpoint lstrip (s : str) : str :=
  match s with
  | c :: s' => if isspace c then lstrip s' else s
  | [] => []
  end.

(** [s.strip()] *)
Definition strip (s : str) : str := rev (lstrip (rev (lstrip s))).

(** [str(n)] for a Python int. *)
Definition str_of_Z (z : Z) : str := py (NilZero.string_of_int (Z.to_int z)).

(** ** Exceptions and the error monad *)

Inductive exn :=
| TypeError
| AttributeError
| KeyError
| IndexError
| ValueError
| JSONDecodeError
| ImportError
| EmptyReport            (* Exception("AI processor returned empty report") *)
| External (what : str). (* raised by a library or a remote service *)

Inductive result (A : Type) :=
| Ok (a : A)
| Raise (e : exn).
Arguments Ok {A} a.
Arguments Raise {A} e.

Definition bind {A B} (m : result A) (k : A -> result B) : result B :=
  match m with
  | Ok a => k a
  | Raise e => Raise e
  end.

(** [try: m  except Exception: h] *)
Definition try_except {A} (m : result A) (h : exn -> result A) : result A :=
  match m with
  | Ok a => Ok a
  | Raise e => h e
  end.

(** [try: return m  except Exception: return default] *)
Definition recover {A} (m : result A) (default : A) : A :=
  match m with
  | Ok a => a
  | Raise _ => default
  end.

Fixpoint mapM {A B} (f : A -> result B) (l : list A) : result (list B) :=
  match l with
  | [] => Ok []
  | x :: l' =>
      match f x with
      | Ok y => match mapM f l' with Ok ys => Ok (y :: ys) | Raise e => Raise e end
      | Raise e => Raise e
      end
  end.

(** ** Values *)

(** A float is kept as the decimal literal it was read from. *)
Inductive float_lit :=
| FNaN
| FInf (negative : bool)
| FDec (negative : bool) (mantissa : Z) (exp10 : Z). (* mantissa * 10^exp10 *)

Inductive pyval :=
| PNone
| PBool (b : bool)
| PInt (z : Z)
| PFloat (f : float_lit)
| PStr (s : str)
| PList (xs : list pyval)
| PDict (kvs : list (str * pyval)). (* insertion ordered, keys distinct *)

(** A decimal literal rounds to [0.0] when it is zero or at most half the
    least subnormal double, 2^-1075. *)
Definition float_nonzero (f : float_lit) : bool :=
  match f with
  | FNaN | FInf _ => true
  | FDec _ m e =>
      negb (m =? 0)%Z &&
      ((0 <=? e)%Z || (10 ^ (- e) <? m * 2 ^ 1075)%Z)
  end.

(** [bool(v)] *)
Definition truthy (v : pyval) : bool :=
  match v with
  | PNone => false
  | PBool b => b
  | PInt z => negb (z =? 0)%Z
  | PFloat f => float_nonzero f
  | PStr s => match s with [] => false | _ => true end
  | PList xs => match xs with [] => false | _ => true end
  | PDict kvs => match kvs with [] => false | _ => true end
  end.

(** [a or b] *)
Definition py_or (a b : pyval) : pyval := if truthy a then a else b.

(** [len(v)] *)
Definition len (v : pyval) : result nat :=
  match v with
  | PStr s => Ok (length s)
  | PList xs => Ok (length xs)
  | PDict kvs => Ok (length kvs)
  | _ => Raise TypeError
  end.

Fixpoint lookup (kvs : list (str * pyval)) (k : str) : option pyval :=
  match kvs with
  | [] => None
  | (k', v) :: kvs' => if str_eqb k' k then Some v else lookup kvs' k
  end.

(** [d[k] = v] on the association list of a dict. *)
Fixpoint assign (kvs : list (str * pyval)) (k : str) (v : pyval)
  : list (str * pyval) :=
  match kvs with
  | [] => [(k, v)]
  | (k', v') :: kvs' =>
      if str_eqb k' k then (k', v) :: kvs' else (k', v') :: assign kvs' k v
  end.

(** [dict(pairs)] *)
Definition dict_of_pairs (pairs : list (str * pyval)) : list (str * pyval) :=
  fold_left (fun d kv => assign d (fst kv) (snd kv)) pairs [].

(** [v.get(k, default)]: only dicts have the method. *)
Definition get (v : pyval) (k : str) (default : pyval) : result pyval :=
  match v with
  | PDict kvs => Ok (match lookup kvs k with Some x => x | None => default end)
  | _ => Raise AttributeError
  end.

(** [k in v] for a string [k]. *)
Definition has (v : pyval) (k : str) : result bool :=
  match v with
  | PDict kvs => Ok (match lookup kvs k with Some _ => true | None => false end)
  | PStr s => Ok (contains s k)
  | PList xs =>
      Ok (existsb (fun x => match x with PStr s => str_eqb s k | _ => false end) xs)
  | _ => Raise TypeError
  end.

(** [v[k]] for a string key [k]. *)
Definition getitem (v : pyval) (k : str) : result pyval :=
  match v with
  | PDict kvs => match lookup kvs k with Some x => Ok x | None => Raise KeyError end
  | _ => Raise TypeError
  end.

(** [v[0]] *)
Definition first (v : pyval) : result pyval :=
  match v with
  | PList (x :: _) => Ok x
  | PStr (c :: _) => Ok (PStr [c])
  | PList [] | PStr [] => Raise IndexError
  | PDict kvs => Raise KeyError
  | _ => Raise TypeError
  end.

(** [v[:n]]: lists and strings are sliced, anything else raises (a dict
    raises [TypeError] or [KeyError] depending on the interpreter version;
    both are caught alike by every handler of this program). *)
Definition slice_to (v : pyval) (n : nat) : result pyval :=
  match v with
  | PStr s => Ok (PStr (firstn n s))
  | PList xs => Ok (PList (firstn n xs))
  | _ => Raise TypeError
  end.

(** [for x in v]: the elements visited. *)
Definition iter (v : pyval) : result (list pyval) :=
  match v with
  | PList xs => Ok xs
  | PStr s => Ok (map (fun c => PStr [c]) s)
  | PDict kvs => Ok (map (fun kv => PStr (fst kv)) kvs)
  | _ => Raise TypeError
  end.

(** [list(d.keys())] *)
Definition keys (v : pyval) : list str :=
  match v with
  | PDict kvs => map fst kvs
  | _ => []
  end.

Section Str.

(** [repr] of floats, lists and dicts is left to the interpreter. *)
Variable repr : pyval -> str.

(** [str(v)] *)
Definition to_str (v : pyval) : str :=
  match v with
  | PNone => py "None"
  | PBool true => py "True"
  | PBool false => py "False"
  | PInt z => str_of_Z z
  | PStr s => s
  | _ => repr v
  end.

End Str.

End Py.

Import Py.

Declare Scope py_scope.
Notation "x <- m ;; k" := (bind m (fun x => k))
  (at level 61, m at next level, right associativity) : py_scope.
Notation "m ;;; k" := (bind m (fun _ => k))
  (at level 61, right associativity) : py_scope.
Open Scope py_scope.

(** ** The [re] module: a backtracking matcher

    Python's [re] tries alternatives in priority order and keeps the first
    that lets the rest of the pattern match.  [run r s k] matches [r] at the
    head of [s] and hands each candidate remainder to the continuation [k],
    most preferred first. *)

Module Re.

Inductive regex :=
| Chr (c : char)            (* one literal character *)
| NoneOf (cs : list char)   (* [^...] *)
| Dot                       (* . under re.DOTALL: any character *)
| Seq (r1 r2 : regex)
| Star (r : regex)          (* r*   greedy *)
| StarLazy (r : regex).     (* r*?  lazy *)

Fixpoint run {A : Type} (r : regex) (s : str) (k : str -> option A) : option A :=
  match r with
  | Chr c =>
      match s with
      | x :: t => if N.eqb x c then k t else None
      | [] => None
      end
  | NoneOf cs =>
      match s with
      | x :: t => if existsb (N.eqb x) cs then None else k t
      | [] => None
      end
  | Dot =>
      match s with
      | _ :: t => k t
      | [] => None
      end
  | Seq r1 r2 => run r1 s (fun s1 => run r2 s1 k)
  | Star r1 =>
      (fix loop (fuel : nat) (s : str) : option A :=
         match fuel with
         | O => k s
         | S fuel' =>
             match run r1 s (fun s1 =>
                     if length s1 <? length s then loop fuel' s1 else None) with
             | Some a => Some a
             | None => k s
             end
         end) (length s) s
  | StarLazy r1 =>
      (fix loop (fuel : nat) (s : str) : option A :=
         match fuel with
         | O => k s
         | S fuel' =>
             match k s with
             | Some a => Some a
             | None =>
                 run r1 s (fun s1 =>
                   if length s1 <? length s then loop fuel' s1 else None)
             end
         end) (length s) s
  end.

(** The leftmost match at the head of [s]: what is left after it. *)
Definition match_at (r : regex) (s : str) : option str := run r s (fun rest => Some rest).

(** [re.findall(r, s)] for a pattern without groups: the matched substrings,
    left to right, not overlapping. *)
Fixpoint findall_from (fuel : nat) (r : regex) (s : str) : list str :=
  match fuel with
  | O => []
  | S fuel' =>
      let advance := match s with [] => [] | _ :: t => findall_from fuel' r t end in
      match match_at r s with
      | Some rest =>
          firstn (length s - length rest) s ::
          (if length rest <? length s then findall_from fuel' r rest else advance)
      | None => advance
      end
  end.

Definition findall (r : regex) (s : str) : list str :=
  findall_from (S (length s)) r s.

End Re.

(** ** The [json] module: [json.loads]

    The decoder follows CPython's scanner: strict strings, numbers made of
    an integer part, an optional fraction and an optional exponent, the constants
    [NaN], [Infinity] and [-Infinity], and [dict(pairs)] for objects. *)

Module Json.

Definition is_ws (c : char) : bool :=
  ((c =? 32) || (c =? 9) || (c =? 10) || (c =? 13))%N.

Fixpoint skip_ws (s : str) : str :=
  match s with
  | c :: t => if is_ws c then skip_ws t else s
  | [] => []
  end.

Definition is_digit (c : char) : bool := ((48 <=? c) && (c <=? 57))%N.

Definition hex_val (c : char) : option N :=
  if is_digit c then Some (c - 48)%N
  else if ((97 <=? c) && (c <=? 102))%N then Some (c - 87)%N
  else if ((65 <=? c) && (c <=? 70))%N then Some (c - 55)%N
  else None.

Definition hex4 (a b c d : char) : option N :=
  match hex_val a, hex_val b, hex_val c, hex_val d with
  | Some x, Some y, Some z, Some w => Some (((x * 16 + y) * 16 + z) * 16 + w)%N
  | _, _, _, _ => None
  end.

Definition is_high_surrogate (u : N) : bool := ((55296 <=? u) && (u <=? 56319))%N.
Definition is_low_surrogate (u : N) : bool := ((56320 <=? u) && (u <=? 57343))%N.
Definition join_surrogates (hi lo : N) : N :=
  (65536 + ((hi - 55296) * 1024 + (lo - 56320)))%N.

(** The character a one-letter escape stands for. *)
Definition simple_escape (e : char) : option char :=
  if (e =? 34)%N then Some 34%N          (* a double quote *)
  else if (e =? 92)%N then Some 92%N     (* a backslash *)
  else if (e =? 47)%N then Some 47%N     (* a slash *)
  else if (e =? 98)%N then Some 8%N      (* backspace *)
  else if (e =? 102)%N then Some 12%N    (* form feed *)
  else if (e =? 110)%N then Some 10%N    (* line feed *)
  else if (e =? 114)%N then Some 13%N    (* carriage return *)
  else if (e =? 116)%N then Some 9%N     (* tab *)
  else None.

(** [scanstring]: the text after an opening quote, up to the closing one. *)
Fixpoint scanstring (s : str) (acc : str) : option (str * str) :=
  match s with
  | [] => None
  | c :: t =>
      if (c =? 34)%N then Some (rev acc, t)
      else if (c =? 92)%N then
        match t with
        | [] => None
        | e :: t1 =>
            if (e =? 117)%N then
              match t1 with
              | a :: b :: c1 :: d :: t2 =>
                  match hex4 a b c1 d with
                  | None => None
                  | Some uni =>
                      if is_high_surrogate uni then
                        match t2 with
                        | bs :: u :: a2 :: b2 :: c2 :: d2 :: t3 =>
                            if ((bs =? 92) && (u =? 117))%N then
                              match hex4 a2 b2 c2 d2 with
                              | None => None
                              | Some uni2 =>
                                  if is_low_surrogate uni2
                                  then scanstring t3 (join_surrogates uni uni2 :: acc)
                                  else scanstring t2 (uni :: acc)
                              end
                            else scanstring t2 (uni :: acc)
                        | _ => scanstring t2 (uni :: acc)
                        end
                      else scanstring t2 (uni :: acc)
                  end
              | _ => None
              end
            else
              match simple_escape e with
              | Some x => scanstring t1 (x :: acc)
              | None => None
              end
        end
      else if (c <? 32)%N then None
      else scanstring t (c :: acc)
  end.

Fixpoint digits (s : str) : str * str :=
  match s with
  | c :: t => if is_digit c then let (d, r) := digits t in (c :: d, r) else ([], s)
  | [] => ([], [])
  end.

Definition Z_of_digits (d : str) : Z :=
  fold_left (fun acc c => acc * 10 + Z.of_N (c - 48))%Z d 0%Z.

(** The sign of a number and what follows it. *)
Definition number_sign (s : str) : bool * str :=
  match s with
  | c :: t => if (c =? 45)%N then (true, t) else (false, s)
  | [] => (false, s)
  end.

(** The integer part: [0], or a non-zero digit and more digits. *)
Definition number_int (s : str) : option (str * str) :=
  match s with
  | c :: t =>
      if (c =? 48)%N then Some ([c], t)
      else if ((49 <=? c) && (c <=? 57))%N then
        let (d, r) := digits t in Some (c :: d, r)
      else None
  | [] => None
  end.

(** The fraction, when a dot and at least one digit follow. *)
Definition number_frac (s : str) : str * str :=
  match s with
  | c :: t =>
      if (c =? 46)%N then
        match digits t with
        | ([], _) => ([], s)
        | (d, r) => (d, r)
        end
      else ([], s)
  | [] => ([], s)
  end.

(** The exponent, when [e] or [E], an optional sign and at least one digit
    follow. *)
Definition number_exp (s : str) : option Z * str :=
  match s with
  | c :: t =>
      if ((c =? 101) || (c =? 69))%N then
        let (negative, t1) :=
          match t with
          | g :: t' =>
              if (g =? 45)%N then (true, t')
              else if (g =? 43)%N then (false, t') else (false, t)
          | [] => (false, t)
          end in
        match digits t1 with
        | ([], _) => (None, s)
        | (d, r) => (Some (if negative then - Z_of_digits d else Z_of_digits d)%Z, r)
        end
      else (None, s)
  | [] => (None, s)
  end.

Definition match_number (s : str) : option (pyval * str) :=
  let (negative, s1) := number_sign s in
  match number_int s1 with
  | None => None
  | Some (ip, r1) =>
      let (frac, r2) := number_frac r1 in
      let (ex, r3) := number_exp r2 in
      match frac, ex with
      | [], None =>
          Some (PInt (if negative then - Z_of_digits ip else Z_of_digits ip)%Z, r3)
      | _, _ =>
          Some (PFloat (FDec negative (Z_of_digits (ip ++ frac))
                          (match ex with Some e => e | None => 0 end
                           - Z.of_nat (length frac))%Z), r3)
      end
  end.

Inductive outcome (A : Type) :=
| Parsed (a : A) (rest : str)
| Invalid
| OutOfFuel.
Arguments Parsed {A} a rest.
Arguments Invalid {A}.
Arguments OutOfFuel {A}.

Fixpoint scan_once (fuel : nat) (s : str) : outcome pyval :=
  match fuel with
  | O => OutOfFuel
  | S fuel' =>
      match s with
      | [] => Invalid
      | c :: t =>
          if (c =? 34)%N then
            match scanstring t [] with
            | Some (x, r) => Parsed (PStr x) r
            | None => Invalid
            end
          else if (c =? 123)%N then
            match skip_ws t with
            | c' :: r =>
                if (c' =? 125)%N then Parsed (PDict []) r
                else parse_members fuel' (c' :: r) []
            | [] => Invalid
            end
          else if (c =? 91)%N then
            match skip_ws t with
            | c' :: r =>
                if (c' =? 93)%N then Parsed (PList []) r
                else parse_items fuel' (c' :: r) []
            | [] => Invalid
            end
          else if startswith s (py "null") then Parsed PNone (skipn 4 s)
          else if startswith s (py "true") then Parsed (PBool true) (skipn 4 s)
          else if startswith s (py "false") then Parsed (PBool false) (skipn 5 s)
          else if startswith s (py "NaN") then Parsed (PFloat FNaN) (skipn 3 s)
          else if startswith s (py "Infinity") then
            Parsed (PFloat (FInf false)) (skipn 8 s)
          else if startswith s (py "-Infinity") then
            Parsed (PFloat (FInf true)) (skipn 9 s)
          else
            match match_number s with
            | Some (v, r) => Parsed v r
            | None => Invalid
            end
      end
  end

with parse_members (fuel : nat) (s : str) (acc : list (str * pyval))
  : outcome pyval :=
  match fuel with
  | O => OutOfFuel
  | S fuel' =>
      match s with
      | [] => Invalid
      | c :: t =>
          if (c =? 34)%N then
            match scanstring t [] with
            | None => Invalid
            | Some (key, r) =>
                match skip_ws r with
                | [] => Invalid
                | colon :: r1 =>
                    if (colon =? 58)%N then
                      match scan_once fuel' (skip_ws r1) with
                      | Parsed v r2 =>
                          match skip_ws r2 with
                          | [] => Invalid
                          | d :: r3 =>
                              if (d =? 125)%N then
                                Parsed (PDict (dict_of_pairs (rev ((key, v) :: acc)))) r3
                              else if (d =? 44)%N then
                                parse_members fuel' (skip_ws r3) ((key, v) :: acc)
                              else Invalid
                          end
                      | Invalid => Invalid
                      | OutOfFuel => OutOfFuel
                      end
                    else Invalid
                end
            end
          else Invalid
      end
  end

with parse_items (fuel : nat) (s : str) (acc : list pyval) : outcome pyval :=
  match fuel with
  | O => OutOfFuel
  | S fuel' =>
      match scan_once fuel' s with
      | Parsed v r =>
          match skip_ws r with
          | [] => Invalid
          | d :: r1 =>
              if (d =? 93)%N then Parsed (PList (rev (v :: acc))) r1
              else if (d =? 44)%N then parse_items fuel' (skip_ws r1) (v :: acc)
              else Invalid
          end
      | Invalid => Invalid
      | OutOfFuel => OutOfFuel
      end
  end.

Section Loads.

(** The interpreter's own limits (recursion depth, the digit limit of
    [int]) make [json.loads] raise something other than [JSONDecodeError]
    on some texts; which texts is left open. *)
Variable limits : str -> option exn.

Definition loads (s : str) : result pyval :=
  match limits s with
  | Some e => Raise e
  | None =>
      if startswith s [65279%N] then Raise JSONDecodeError
      else
        let s0 := skip_ws s in
        match scan_once (S (2 * length s0)) s0 with
        | Parsed v rest =>
            match skip_ws rest with
            | [] => Ok v
            | _ :: _ => Raise JSONDecodeError
            end
        | _ => Raise JSONDecodeError
        end
  end.

End Loads.

(** An interpreter whose limits are never reached. *)
Definition no_limits (s : str) : option exn := None.

End Json.

(** ** services/ai_processor.py *)

Module AIProcessor.

Record response := {
  status_code : Z;
  text : str;
  json : result pyval   (* response.json() *)
}.

Definition lbrace : char := 123%N.
Definition rbrace : char := 125%N.
Definition no_brace : Re.regex := Re.Star (Re.NoneOf [lbrace; rbrace]).

(** The two patterns of [_extract_json]: an object with at most one level
    of nested braces, then the shortest text from an opening to a closing
    brace. *)
Definition json_patterns : list Re.regex :=
  [ Re.Seq (Re.Chr lbrace)
      (Re.Seq no_brace
         (Re.Seq
            (Re.Star
               (Re.Seq (Re.Chr lbrace)
                  (Re.Seq no_brace (Re.Seq (Re.Chr rbrace) no_brace))))
            (Re.Chr rbrace)));
    Re.Seq (Re.Chr lbrace) (Re.Seq (Re.StarLazy Re.Dot) (Re.Chr rbrace)) ].

Section AIProcessor.

Variable repr : pyval -> str.
Variable limits : str -> option exn.
(** [os.getenv('hugging_face')] *)
Variable api_token : option str.
(** matplotlib: plot the series under the title, save as PNG, base64. *)
Variable savefig_b64 : str -> list Z -> result str.
(** [requests.post] to the inference endpoint with the token and prompt. *)
Variable requests_post : str -> str -> result response.

Definition token_missing : bool :=
  match api_token with
  | None | Some [] => true
  | Some (_ :: _) => false
  end.

(** The inner loop of [_extract_json]: the first match that parses to a
    dict.  Only [JSONDecodeError] is handled. *)
Fixpoint first_dict (matches : list str) : result (option pyval) :=
  match matches with
  | [] => Ok None
  | m :: rest =>
      match Json.loads limits m with
      | Ok (PDict d) => Ok (Some (PDict d))
      | Ok _ => first_dict rest
      | Raise JSONDecodeError => first_dict rest
      | Raise e => Raise e
      end
  end.

Fixpoint scan_patterns (patterns : list Re.regex) (s : str) : result pyval :=
  match patterns with
  | [] => Ok PNone
  | p :: ps =>
      r <- first_dict (Re.findall p s) ;;
      match r with
      | Some parsed => Ok parsed
      | None => scan_patterns ps s
      end
  end.

Definition _extract_json (text : pyval) : result pyval :=
  match text with
  | PStr s => scan_patterns json_patterns s
  | _ => Raise TypeError   (* re.findall wants a string *)
  end.

Definition newline : str := [10%N].

Fixpoint format_entries (i : Z) (rs : list pyval) : result str :=
  match rs with
  | [] => Ok []
  | r :: rs' =>
      title <- get r (py "title") (PStr []) ;;
      source <- get r (py "source") (PStr []) ;;
      description <- get r (py "description") (PStr []) ;;
      more <- format_entries (i + 1) rs' ;;
      Ok (str_of_Z i ++ py ". " ++ to_str repr title ++ newline ++
          py "   Source: " ++ to_str repr source ++ newline ++
          py "   " ++ to_str repr description ++ newline ++ more)
  end.

Definition _format_web_results (results : pyval) : result str :=
  if negb (truthy results) then Ok []
  else
    head <- slice_to results 5 ;;
    rs <- iter head ;;
    format_entries 1 rs.

Definition default_data : list Z := [1; 2; 2; 3; 4; 5]%Z.

Definition _generate_chart (title : str) (data : option (list Z)) : result str :=
  let data :=
    match data with
    | None | Some [] => default_data
    | Some d => d
    end in
  img_base64 <- savefig_b64 title data ;;
  Ok (py "data:image/png;base64," ++ img_base64).

Definition _create_fallback_structure
  (topic document_text : str) (web_results : pyval) : result pyval :=
  let has_document := match document_text with [] => false | _ => true end in
  let summary := py "Analysis of " ++ topic in
  let summary :=
    if has_document then
      summary ++ py ". Document provided with " ++
      str_of_Z (Z.of_nat (length document_text)) ++ py " characters."
    else summary in
  summary <-
    (if truthy web_results then
       n <- len web_results ;;
       Ok (summary ++ py " " ++ str_of_Z (Z.of_nat n) ++ py " web sources analyzed.")
     else Ok summary) ;;
  let findings :=
    if has_document
    then [PStr (py "Document contains information about " ++ topic)]
    else [] in
  findings <-
    (if truthy web_results then
       head <- slice_to web_results 3 ;;
       rs <- iter head ;;
       refs <- mapM (fun r =>
                 title <- get r (py "title") (PStr (py "Source")) ;;
                 Ok (PStr (py "Reference: " ++ to_str repr title))) rs ;;
       Ok (findings ++ refs)
     else Ok findings) ;;
  chart1 <- _generate_chart (topic ++ py " Trend 1") None ;;
  chart2 <- _generate_chart (topic ++ py " Trend 2") None ;;
  Ok (PDict
        [ (py "executive_summary", PStr summary);
          (py "key_findings",
            PList (match findings with
                   | [] => [PStr (py "Processing complete")]
                   | _ :: _ => findings
                   end));
          (py "charts", PList [PStr chart1; PStr chart2]);
          (py "recommendations",
            PList [PStr (py "Review the provided sources");
                   PStr (py "Consider additional research")]) ]).

(** [result[0]["generated_text"]] when the reply is a list whose first
    element contains that key, [str(result)] otherwise. *)
Definition generated_text_of (reply : pyval) : result pyval :=
  match reply with
  | PList _ =>
      x <- first reply ;;
      present <- has x (py "generated_text") ;;
      if present then getitem x (py "generated_text")
      else Ok (PStr (to_str repr reply))
  | _ => Ok (PStr (to_str repr reply))
  end.

(** [for key in keys: validated[key] = validated[key][:5]] *)
Fixpoint limit_items (validated : list (str * pyval)) (keys : list str)
  : result (list (str * pyval)) :=
  match keys with
  | [] => Ok validated
  | key :: keys' =>
      v <- getitem (PDict validated) key ;;
      v5 <- slice_to v 5 ;;
      limit_items (assign validated key v5) keys'
  end.

Definition prompt_of (topic doc_excerpt web_context : str) : str :=
  py "Generate a JSON report about the topic: " ++ topic ++ py "." ++
  newline ++ newline ++
  py "Include keys: executive_summary (string), key_findings (list), " ++
  py "charts (list), recommendations (list). Only return valid JSON." ++
  newline ++ newline ++
  py "Document excerpt: " ++ doc_excerpt ++ newline ++
  web_context ++ newline.

Definition generate_report_structure
  (topic document_text : str) (web_results : pyval) : result pyval :=
  match api_token with
  | None | Some [] => _create_fallback_structure topic document_text web_results
  | Some (c :: token) =>
    try_except
      (let doc_excerpt := firstn 600 document_text in
       web_context <- _format_web_results web_results ;;
       let prompt := prompt_of topic doc_excerpt web_context in
       response <- requests_post (c :: token) prompt ;;
       if negb (status_code response =? 200)%Z then
         _create_fallback_structure topic document_text web_results
       else
         reply <- json response ;;
         generated_text <- generated_text_of reply ;;
         _ <- slice_to generated_text 200 ;;           (* logged *)
         parsed <- _extract_json generated_text ;;
         if negb (truthy parsed) then
           _create_fallback_structure topic document_text web_results
         else
           summary <- get parsed (py "executive_summary")
                        (PStr (py "Analysis of " ++ topic)) ;;
           findings <- get parsed (py "key_findings") (PList []) ;;
           charts <- get parsed (py "charts") (PList []) ;;
           charts <-
             (if truthy charts then Ok charts
              else
                chart1 <- _generate_chart (topic ++ py " Trend 1") None ;;
                chart2 <- _generate_chart (topic ++ py " Trend 2") None ;;
                Ok (PList [PStr chart1; PStr chart2])) ;;
           recommendations <- get parsed (py "recommendations") (PList []) ;;
           let validated :=
             [ (py "executive_summary", PStr (firstn 1000 (to_str repr summary)));
               (py "key_findings",
                 py_or findings
                   (PList [PStr (py "See executive summary for key findings")]));
               (py "charts", charts);
               (py "recommendations",
                 py_or recommendations
                   (PList [PStr (py "See executive summary for recommendations")])) ] in
           validated <- limit_items validated
                          [py "key_findings"; py "charts"; py "recommendations"] ;;
           Ok (PDict validated))
      (fun _ => _create_fallback_structure topic document_text web_results)
  end.

End AIProcessor.

(** The keys of a report, in order. *)
Definition report_keys : list str :=
  [ py "executive_summary"; py "key_findings"; py "charts"; py "recommendations" ].

(** [len(report[key])] *)
Definition field_length (report : pyval) (key : str) : result nat :=
  v <- getitem report key ;; len v.

End AIProcessor.

(** ** services/chart_generator.py *)

Module ChartGenerator.

Inductive chart_kind := Bar | Pie.

Section ChartGenerator.

(** plotly and kaleido: build the figure from the labels and values, render
    it to PNG, base64-encode it. *)
Variable to_image_b64 : chart_kind -> list pyval -> list pyval -> result str.

Definition chart_type (k : chart_kind) : str :=
  match k with Bar => py "bar" | Pie => py "pie" end.

Definition chart_title (k : chart_kind) : str :=
  match k with Bar => py "Data Overview" | Pie => py "Distribution Analysis" end.

(** The common body of [_create_bar_chart] and [_create_pie_chart]: any
    exception is logged and turned into [None]. *)
Definition create_chart (k : chart_kind) (data_points : pyval) : pyval :=
  recover
    (dps <- iter data_points ;;
     labels <- mapM (fun dp => getitem dp (py "label")) dps ;;
     values <- mapM (fun dp => getitem dp (py "value")) dps ;;
     img_base64 <- to_image_b64 k labels values ;;
     Ok (PDict [ (py "type", PStr (chart_type k));
                 (py "image", PStr img_base64);
                 (py "title", PStr (chart_title k)) ]))
    PNone.

Definition _create_bar_chart : pyval -> pyval := create_chart Bar.
Definition _create_pie_chart : pyval -> pyval := create_chart Pie.

(** [generate_charts] returns the charts; the second component lists the
    chart kinds whose creation was attempted, in order.  The module-level
    dependency plotly is taken to be importable. *)
Definition generate_charts (data_points : pyval)
  : result (list pyval * list chart_kind) :=
  let charts := [] in
  too_few <-
    (if negb (truthy data_points) then Ok true
     else n <- len data_points ;; Ok (n <? 2)) ;;
  if too_few then Ok (charts, [])
  else
    let bar_chart := _create_bar_chart data_points in
    let charts := if truthy bar_chart then charts ++ [bar_chart] else charts in
    match len data_points with
    | Ok n =>
        if n <=? 6 then
          let pie_chart := _create_pie_chart data_points in
          let charts := if truthy pie_chart then charts ++ [pie_chart] else charts in
          Ok (charts, [Bar; Pie])
        else Ok (charts, [Bar])
    | Raise _ => Ok (charts, [Bar])
    end.

End ChartGenerator.

(** The chart record of a rendered image. *)
Definition rendered (k : chart_kind) (image : str) : pyval :=
  PDict [ (py "type", PStr (chart_type k));
          (py "image", PStr image);
          (py "title", PStr (chart_title k)) ].

End ChartGenerator.

(** ** services/web_search.py *)

Module WebSearchService.

Section WebSearchService.

(** [os.getenv('SERPAPI_API_KEY')] *)
Variable api_key : option str.
(** [GoogleSearch(params).get_dict()] *)
Variable get_dict : list (str * pyval) -> result pyval.

Definition key_value : pyval :=
  match api_key with
  | Some k => PStr k
  | None => PNone
  end.

Definition _parse_results (results : pyval) : result pyval :=
  organic_results <- get results (py "organic_results") (PList []) ;;
  rs <- iter organic_results ;;
  parsed <- mapM (fun r =>
              title <- get r (py "title") (PStr []) ;;
              snippet <- get r (py "snippet") (PStr []) ;;
              link <- get r (py "link") (PStr []) ;;
              displayed <- get r (py "displayed_link") (PStr []) ;;
              Ok (PDict [ (py "title", title);
                          (py "description", snippet);
                          (py "url", link);
                          (py "source", displayed) ])) rs ;;
  answer_box <- get results (py "answer_box") (PDict []) ;;
  if truthy answer_box then
    title <- get answer_box (py "title") (PStr (py "Featured Answer")) ;;
    snippet <- get answer_box (py "snippet") (PStr []) ;;
    answer <- get answer_box (py "answer") snippet ;;
    link <- get answer_box (py "link") (PStr []) ;;
    Ok (PList (PDict [ (py "title", title);
                       (py "description", answer);
                       (py "url", link);
                       (py "source", PStr (py "Featured Snippet")) ] :: parsed))
  else Ok (PList parsed).

Definition fallback_result : pyval :=
  PDict [ (py "title", PStr (py "Sample Result 1"));
          (py "description", PStr (py "This is a fallback result for demo purposes."));
          (py "url", PStr (py "https://example.com"));
          (py "source", PStr (py "example.com")) ].

Definition _get_fallback_results : pyval := PList [fallback_result].

Definition search_params (query : str) (count : Z) : list (str * pyval) :=
  [ (py "q", PStr query);
    (py "api_key", key_value);
    (py "num", PInt count);
    (py "engine", PStr (py "google")) ].

(** The body of the [try] block of [search]. *)
Definition search_body (query : str) (count : Z) : result pyval :=
  match api_key with
  | None | Some [] => Ok _get_fallback_results
  | Some (_ :: _) =>
      results <- get_dict (search_params query count) ;;
      _parse_results results
  end.

Definition search (query : str) (count : Z) : pyval :=
  recover (search_body query count) _get_fallback_results.

Definition _parse_news_results (results : pyval) : result pyval :=
  news_results <- get results (py "news_results") (PList []) ;;
  rs <- iter news_results ;;
  parsed <- mapM (fun r =>
              title <- get r (py "title") (PStr []) ;;
              snippet <- get r (py "snippet") (PStr []) ;;
              link <- get r (py "link") (PStr []) ;;
              source <- get r (py "source") (PStr []) ;;
              date <- get r (py "date") (PStr []) ;;
              Ok (PDict [ (py "title", title);
                          (py "description", snippet);
                          (py "url", link);
                          (py "source", source);
                          (py "date", date) ])) rs ;;
  Ok (PList parsed).

(** The body of the [try] block of [search_news]: the key is passed on as
    it is, present or not. *)
Definition news_params (query : str) (count : Z) : list (str * pyval) :=
  [ (py "q", PStr query);
    (py "api_key", key_value);
    (py "tbm", PStr (py "nws"));
    (py "num", PInt count);
    (py "engine", PStr (py "google")) ].

Definition search_news_body (query : str) (count : Z) : result pyval :=
  results <- get_dict (news_params query count) ;;
  _parse_news_results results.

Definition search_news (query : str) (count : Z) : pyval :=
  recover (search_news_body query count) (PList []).

End WebSearchService.

(** The keys of a search result and of a news result. *)
Definition result_keys : list str :=
  [py "title"; py "description"; py "url"; py "source"].

Definition news_keys : list str := result_keys ++ [py "date"].

End WebSearchService.

(** ** services/document_processor.py *)

Module DocumentProcessor.

Section DocumentProcessor.

(** pdfplumber: the text of each page of the file ([None] for a page
    without text), or the exception raised on the way. *)
Variable pdf_pages : str -> result (list (option str)).

Fixpoint join_pages (pages : list (option str)) : str :=
  match pages with
  | [] => []
  | Some (c :: page_text) :: pages' => (c :: page_text) ++ [10%N] ++ join_pages pages'
  | _ :: pages' => join_pages pages'
  end.

Definition extract_text_from_pdf (file_path : str) : str :=
  recover (pages <- pdf_pages file_path ;; Ok (join_pages pages)) [].

End DocumentProcessor.

Section Tables.

(** pdfplumber: the tables found on each page of the file (a table is a
    list of rows), or the exception raised on the way. *)
Variable pdf_page_tables : str -> result (list (list pyval)).

(** [for page in pdf.pages: if page_tables: tables.extend(page_tables)] *)
Fixpoint extend_tables (tables : list pyval) (pages : list (list pyval)) : list pyval :=
  match pages with
  | [] => tables
  | [] :: pages' => extend_tables tables pages'
  | (t :: page_tables) :: pages' => extend_tables (tables ++ t :: page_tables) pages'
  end.

Definition extract_tables_from_pdf (file_path : str) : list pyval :=
  recover (pages <- pdf_page_tables file_path ;; Ok (extend_tables [] pages)) [].

End Tables.

(** A page without text. *)
Definition blank_page (page : option str) : Prop := page = None \/ page = Some [].

End DocumentProcessor.

(** ** services/report_generator.py *)

Module ReportGenerator.

(** The calls made on the [FPDF] object, in order: the document. *)
Inductive pdf_op :=
| AddPage
| SetFont (family style : str) (size : Z)
| Cell (h : Z) (txt : pyval) (align : str)   (* pdf.cell(page_width, h, txt, ln=True) *)
| MultiCell (h : Z) (txt : pyval)            (* pdf.multi_cell(page_width, h, txt) *)
| Ln (h : Z)
| Image (path : str).

Definition document := list pdf_op.

(** A section heading: a left-aligned cell of height 10. *)
Definition heading (title : string) : pdf_op := Cell 10 (PStr (py title)) [].

Definition is_heading (op : pdf_op) : bool :=
  match op with
  | Cell _ _ [] => true
  | _ => false
  end.

(** The left-aligned cells of a document, in order: its section headings
    (the centred title is not one). *)
Definition headings (doc : document) : document := filter is_heading doc.

Section ReportGenerator.

Variable repr : pyval -> str.
(** fpdf: whether the library carries out the call on the document so far
    (a text it cannot encode, an image it cannot read raise). *)
Variable fpdf : document -> pdf_op -> result unit.
(** [base64.b64decode] *)
Variable b64decode : pyval -> result (list N).
(** [tempfile.NamedTemporaryFile(delete=False, suffix='.png')], written. *)
Variable write_temp_png : list N -> result str.
(** [os.unlink] *)
Variable unlink : str -> result unit.
(** [tempfile.mktemp(suffix='.pdf')] *)
Variable mktemp_pdf : str.
(** [pdf.output(path)] *)
Variable output : document -> str -> result unit.

Definition default_text : pyval := PStr (py "N/A").

Definition safe_text (text default : pyval) : pyval :=
  if negb (truthy text)
     || match strip (to_str repr text) with [] => true | _ :: _ => false end
  then default
  else PStr (to_str repr text).

Definition emit (doc : document) (op : pdf_op) : result document :=
  _ <- fpdf doc op ;; Ok (doc ++ [op]).

(** [for x in items: pdf.multi_cell(page_width, h, f'  - {self.safe_text(x)}')] *)
Fixpoint bullets (doc : document) (h : Z) (items : list pyval) : result document :=
  match items with
  | [] => Ok doc
  | x :: items' =>
      doc <- emit doc
               (MultiCell h (PStr (py "  - " ++ to_str repr (safe_text x default_text)))) ;;
      bullets doc h items'
  end.

(** One turn of the chart loop; whatever is raised is logged and the loop
    goes on with the document as it stands. *)
Definition add_chart (doc : document) (chart : pyval) : document :=
  match (image <- get chart (py "image") (PStr []) ;; b64decode image) with
  | Raise _ => doc
  | Ok [] => doc
  | Ok (b :: img_data) =>
      match write_temp_png (b :: img_data) with
      | Raise _ => doc
      | Ok tmp_path =>
          match emit doc (Image tmp_path) with
          | Raise _ => doc
          | Ok doc1 =>
              match emit doc1 (Ln 5) with
              | Raise _ => doc1
              | Ok doc2 =>
                  match unlink tmp_path with
                  | Ok _ | Raise _ => doc2
                  end
              end
          end
      end
  end.

(** [generate_pdf] returns the path of the file; the second component is
    the document written there. *)
Definition generate_pdf (report_data charts : pyval) : result (str * document) :=
  doc <- emit [] AddPage ;;
  (* Title *)
  doc <- emit doc (SetFont (py "Arial") (py "B") 20) ;;
  title <- get report_data (py "title") (PStr (py "Report")) ;;
  title <- slice_to (safe_text title default_text) 80 ;;
  doc <- emit doc (Cell 10 title (py "C")) ;;
  doc <- emit doc (Ln 10) ;;
  (* Executive Summary *)
  doc <- emit doc (SetFont (py "Arial") (py "B") 14) ;;
  doc <- emit doc (heading "1. Executive Summary") ;;
  doc <- emit doc (SetFont (py "Arial") [] 11) ;;
  summary <- get report_data (py "executive_summary")
               (PStr (py "No executive summary available.")) ;;
  doc <- emit doc (MultiCell 6 (safe_text summary default_text)) ;;
  doc <- emit doc (Ln 5) ;;
  (* Key Findings *)
  doc <- emit doc (SetFont (py "Arial") (py "B") 14) ;;
  doc <- emit doc (heading "2. Key Findings") ;;
  doc <- emit doc (SetFont (py "Arial") [] 11) ;;
  key_findings <- get report_data (py "key_findings") (PList []) ;;
  let key_findings :=
    if negb (truthy key_findings)
    then PList [PStr (py "No key findings available.")] else key_findings in
  findings <- iter key_findings ;;
  doc <- bullets doc 6 findings ;;
  doc <- emit doc (Ln 5) ;;
  (* Detailed Analysis *)
  doc <- emit doc (SetFont (py "Arial") (py "B") 14) ;;
  doc <- emit doc (heading "3. Detailed Analysis") ;;
  doc <- emit doc (SetFont (py "Arial") [] 11) ;;
  analysis <- get report_data (py "detailed_analysis")
                (PStr (py "No detailed analysis available.")) ;;
  doc <- emit doc (MultiCell 6 (safe_text analysis default_text)) ;;
  doc <- emit doc (Ln 5) ;;
  (* Charts (if any) *)
  doc <-
    (if truthy charts then
       doc <- emit doc AddPage ;;
       doc <- emit doc (SetFont (py "Arial") (py "B") 14) ;;
       doc <- emit doc (heading "4. Data Visualizations") ;;
       doc <- emit doc (Ln 5) ;;
       cs <- iter charts ;;
       Ok (fold_left add_chart cs doc)
     else Ok doc) ;;
  (* Recommendations *)
  doc <- emit doc AddPage ;;
  doc <- emit doc (SetFont (py "Arial") (py "B") 14) ;;
  doc <- emit doc (heading "5. Recommendations") ;;
  doc <- emit doc (SetFont (py "Arial") [] 11) ;;
  recommendations <- get report_data (py "recommendations") (PList []) ;;
  let recommendations :=
    if negb (truthy recommendations)
    then PList [PStr (py "No recommendations available.")] else recommendations in
  recs <- iter recommendations ;;
  doc <- bullets doc 6 recs ;;
  doc <- emit doc (Ln 5) ;;
  (* References / Citations *)
  citations <- get report_data (py "citations") (PList []) ;;
  doc <-
    (if truthy citations then
       doc <- emit doc (SetFont (py "Arial") (py "B") 12) ;;
       doc <- emit doc (heading "References") ;;
       doc <- emit doc (SetFont (py "Arial") [] 9) ;;
       cites <- iter citations ;;
       bullets doc 5 cites
     else Ok doc) ;;
  (* Save to temporary file *)
  let output_path := mktemp_pdf in
  _ <- output doc output_path ;;
  Ok (output_path, doc).

End ReportGenerator.

(** The centred cells of a document: its title line. *)
Definition title_cells (doc : document) : document :=
  filter (fun op => match op with Cell _ _ (_ :: _) => true | _ => false end) doc.

(** The texts of the body paragraphs and bullets, in order. *)
Definition paragraphs (doc : document) : list pyval :=
  flat_map (fun op => match op with MultiCell _ txt => [txt] | _ => [] end) doc.

(** The image files placed in the document, in order. *)
Definition images (doc : document) : list str :=
  flat_map (fun op => match op with Image path => [path] | _ => [] end) doc.

(** The bullet [generate_pdf] writes for one item of a list field. *)
Definition bullet (repr : pyval -> str) (h : Z) (x : pyval) : pdf_op :=
  MultiCell h (PStr (py "  - " ++ to_str repr (safe_text repr x default_text))).

(** What the chart loop may append for [n] charts: at most [n] images, each
    of a file [write_temp_png] wrote from non-empty data, and spacing; no
    title, paragraph or heading. *)
Definition chart_ops (write_temp_png : list N -> result str) (n : nat) (ops : document)
  : Prop :=
  title_cells ops = [] /\ paragraphs ops = [] /\ headings ops = [] /\
  length (images ops) <= n /\
  Forall (fun p => exists data, data <> [] /\ write_temp_png data = Ok p) (images ops).

End ReportGenerator.

(** ** app.py *)

Module App.

Record upload := { filename : str }.

Record request := {
  method : str;
  form_topic : option str;          (* request.form.get('topic') *)
  files_document : option upload    (* request.files.get('document') *)
}.

Record response := { status : Z; body : pyval }.

(** The pipeline stages a request enters, in order, as the handler logs
    them; the chart stage is recorded with the argument it hands to
    [generate_charts]. *)
Inductive event :=
| ExtractDocument (name : str)
| SearchWeb (query : str)
| Synthesize
| RenderCharts (data_points : pyval)
| AssemblePdf.

(** [os.path.join(a, b)] on POSIX paths. *)
Definition path_join (a b : str) : str :=
  match b with
  | 47%N :: _ => b
  | _ =>
      match rev a with
      | [] => b
      | 47%N :: _ => a ++ b
      | _ => a ++ [47%N] ++ b
      end
  end.

(** [os.path.basename(p)]: what follows the last slash. *)
Fixpoint basename (p : str) : str :=
  match p with
  | [] => []
  | c :: p' =>
      if (c =? 47)%N then basename p'
      else if existsb (N.eqb 47) p' then basename p' else p
  end.

(** The outside world of one request: the environment variables, the
    remote services and the libraries the services call. *)
Record world := {
  repr : pyval -> str;
  limits : str -> option exn;
  hugging_face : option str;
  savefig_b64 : str -> list Z -> result str;
  requests_post : str -> str -> result AIProcessor.response;
  to_image_b64 : ChartGenerator.chart_kind -> list pyval -> list pyval -> result str;
  serpapi_api_key : option str;
  get_dict : list (str * pyval) -> result pyval;
  pdf_pages : str -> result (list (option str));
  fpdf : ReportGenerator.document -> ReportGenerator.pdf_op -> result unit;
  b64decode : pyval -> result (list N);
  write_temp_png : list N -> result str;
  unlink : str -> result unit;
  mktemp_pdf : str;
  output : ReportGenerator.document -> str -> result unit;
  gettempdir : str;                           (* tempfile.gettempdir() *)
  file_save : upload -> str -> result unit;   (* file.save(path) *)
  os_remove : str -> result unit;             (* os.remove(path) *)
  describe : exn -> str                       (* str(e) *)
}.

Section App.

Variable w : world.

(** The services as the application instantiates them. *)
Definition web_search_search : str -> Z -> pyval :=
  WebSearchService.search (serpapi_api_key w) (get_dict w).

Definition ai_generate_report_structure : str -> str -> pyval -> result pyval :=
  AIProcessor.generate_report_structure (repr w) (limits w) (hugging_face w)
    (savefig_b64 w) (requests_post w).

Definition chart_generate_charts
  : pyval -> result (list pyval * list ChartGenerator.chart_kind) :=
  ChartGenerator.generate_charts (to_image_b64 w).

Definition report_generate_pdf : pyval -> pyval -> result (str * ReportGenerator.document) :=
  ReportGenerator.generate_pdf (repr w) (fpdf w) (b64decode w) (write_temp_png w)
    (unlink w) (mktemp_pdf w) (output w).

Definition failure (code : Z) (message : str) : response :=
  {| status := code;
     body := PDict [ (py "success", PBool false); (py "error", PStr message) ] |}.

(** Step 1: the text of the uploaded document, empty on any failure. *)
Definition document_stage (file : upload) : str :=
  recover
    (let temp_path := path_join (gettempdir w) (filename file) in
     _ <- file_save w file temp_path ;;
     let document_text :=
       DocumentProcessor.extract_text_from_pdf (pdf_pages w) temp_path in
     _ <- os_remove w temp_path ;;
     Ok document_text)
    [].

(** Steps 2 to 5 and the reply, for a request that carries a topic. *)
Definition pipeline (topic : str) (file : option upload) : response * list event :=
  (* Step 1: Process document (if provided) *)
  let '(document_text, log) :=
    match file with
    | Some f =>
        match filename f with
        | [] => ([], [])
        | _ :: _ => (document_stage f, [ExtractDocument (filename f)])
        end
    | None => ([], [])
    end in
  (* Step 2: Web search *)
  let log := log ++ [SearchWeb topic] in
  let search_results := web_search_search topic 5 in
  let search_results :=
    match len search_results with
    | Ok _ => search_results
    | Raise _ => PList []
    end in
  (* Step 3: AI processing *)
  let log := log ++ [Synthesize] in
  match
    (report_data <- ai_generate_report_structure topic document_text search_results ;;
     if negb (truthy report_data) then Raise EmptyReport else Ok report_data)
  with
  | Raise e => (failure 500 (py "Failed to generate report: " ++ describe w e), log)
  | Ok report_data =>
      (* Step 4: Generate charts *)
      let '(charts, log) :=
        match get report_data (py "data_points") (PList []) with
        | Raise _ => ([], log)
        | Ok data_points =>
            (match chart_generate_charts data_points with
             | Ok (charts, _) => charts
             | Raise _ => []
             end,
             log ++ [RenderCharts data_points])
        end in
      (* Step 5: Generate PDF *)
      let log := log ++ [AssemblePdf] in
      match report_generate_pdf report_data (PList charts) with
      | Raise e => (failure 500 (py "Failed to generate PDF: " ++ describe w e), log)
      | Ok (pdf_path, _) =>
          match len search_results with
          | Raise e => (failure 500 (describe w e), log)
          | Ok n =>
              ({| status := 200;
                  body := PDict
                    [ (py "success", PBool true);
                      (py "report", report_data);
                      (py "charts_count", PInt (Z.of_nat (length charts)));
                      (py "pdf_url", PStr (py "/api/download/" ++ basename pdf_path));
                      (py "search_results_count", PInt (Z.of_nat n)) ] |},
               log)
          end
      end
  end.

Definition generate_report (req : request) : response * list event :=
  if str_eqb (method req) (py "OPTIONS") then
    ({| status := 204; body := PStr [] |}, [])
  else
    match form_topic req with
    | None | Some [] => (failure 400 (py "Topic is required"), [])
    | Some (c :: topic) => pipeline (c :: topic) (files_document req)
    end.

End App.

(** What a route hands back: a JSON body with a status, or a file sent as
    an attachment under a download name. *)
Inductive reply :=
| JsonReply (r : response)
| SendFile (file_path download_name : str).

Definition check_mark : str := [9989%N].   (* U+2705 *)
Definition cross_mark : str := [10060%N].  (* U+274C *)

Section Routes.

(** [os.getenv], [tempfile.gettempdir()], [os.path.exists], flask's
    [send_file] (which may raise), [str(e)] *)
Variable getenv : str -> option str.
Variable tempdir : str.
Variable path_exists : str -> bool.
Variable send_file : str -> str -> result unit.
Variable describe_exn : exn -> str.

(** [GET /] *)
Definition home : str := py "Flask backend is running!".

Definition env_set (name : string) : bool :=
  match getenv (py name) with
  | None | Some [] => false
  | Some (_ :: _) => true
  end.

(** [GET /api/health] *)
Definition health_check : response :=
  {| status := 200;
     body := PDict
       [ (py "status", PStr (py "healthy"));
         (py "message", PStr (py "Report Generator API is running"));
         (py "services",
           PDict [ (py "openai",
                     PStr (if env_set "OPENAI_API_KEY" then check_mark else cross_mark));
                   (py "serpapi",
                     PStr (if env_set "SERPAPI_API_KEY" then check_mark else cross_mark)) ]) ] |}.

(** [GET /api/download/<filename>] *)
Definition download_report (filename : str) : reply :=
  let file_path := path_join tempdir filename in
  if negb (path_exists file_path) then
    JsonReply {| status := 404;
                 body := PDict [ (py "error", PStr (py "File not found")) ] |}
  else
    match send_file file_path (py "report_" ++ filename) with
    | Ok _ => SendFile file_path (py "report_" ++ filename)
    | Raise e =>
        JsonReply {| status := 500;
                     body := PDict [ (py "error", PStr (describe_exn e)) ] |}
    end.

(** The handlers of unknown routes and of server errors. *)
Definition not_found : response :=
  {| status := 404; body := PDict [ (py "error", PStr (py "Endpoint not found")) ] |}.

Definition internal_error : response :=
  {| status := 500; body := PDict [ (py "error", PStr (py "Internal server error")) ] |}.

End Routes.

(** The body of a successful reply of [generate_report]. *)
Definition success_body (report : pyval) (charts_count : nat) (pdf_name : str)
  (search_results_count : nat) : pyval :=
  PDict [ (py "success", PBool true);
          (py "report", report);
          (py "charts_count", PInt (Z.of_nat charts_count));
          (py "pdf_url", PStr (py "/api/download/" ++ pdf_name));
          (py "search_results_count", PInt (Z.of_nat search_results_count)) ].

(** The request without its upload. *)
Definition without_document (req : request) : request :=
  {| method := method req;
     form_topic := form_topic req;
     files_document := None |}.

End App.

(** ** The report invariant *)

(** A report has the four keys, and its three list fields hold at most
    five items. *)
Definition well_formed_report (r : pyval) : Prop :=
  exists summary findings charts recommendations,
    r = PDict [ (py "executive_summary", PStr summary);
                (py "key_findings", findings);
                (py "charts", charts);
                (py "recommendations", recommendations) ] /\
    (exists n, len findings = Ok n /\ n <= 5) /\
    (exists n, len charts = Ok n /\ n <= 5) /\
    (exists n, len recommendations = Ok n /\ n <= 5).

(** A list field of a report as it leaves the synthesizer: a list or a
    string of one to five items. *)
Definition populated_field (v : pyval) : Prop :=
  (exists l, v = PList l /\ 1 <= length l <= 5) \/
  (exists s, v = PStr s /\ 1 <= length s <= 5).

Definition populated_report (r : pyval) : Prop :=
  exists summary findings charts recommendations,
    r = PDict [ (py "executive_summary", PStr summary);
                (py "key_findings", findings);
                (py "charts", charts);
                (py "recommendations", recommendations) ] /\
    populated_field findings /\ populated_field charts /\
    populated_field recommendations.

Definition is_dict (v : pyval) : Prop := exists kvs, v = PDict kvs.

(** A text with a character that is not white space. *)
Definition not_blank (v : pyval) : Prop := exists s, v = PStr s /\ strip s <> [].

(** [s'] is what is left of [s] after some prefix. *)
Definition is_suffix (s' s : str) : Prop := exists pre, s = pre ++ s'.

(** ** Sample inputs and worlds

    Concrete replies, reports, requests and outside worlds, used to run
    the model. *)

(** Plotting backends that always render, a PDF library that carries out
    every call, a file system that accepts every write. *)
Definition demo_savefig (title : str) (data : list Z) : result str := Ok (py "iVBORw0KGgo=").
Definition demo_repr (v : pyval) : str := py "<repr>".
Definition demo_to_image (k : ChartGenerator.chart_kind) (labels values : list pyval)
  : result str := Ok (py "iVBORw0KGgo=").
Definition demo_fpdf (doc : ReportGenerator.document) (op : ReportGenerator.pdf_op)
  : result unit := Ok tt.
Definition demo_b64decode (image : pyval) : result (list N) :=
  Ok [137%N; 80%N; 78%N; 71%N].
Definition demo_write_temp_png (data : list N) : result str := Ok (py "/tmp/tmpchart.png").
Definition demo_unlink (path : str) : result unit := Ok tt.
Definition demo_pdf_path : str := py "/tmp/tmpreport.pdf".
Definition demo_output (doc : ReportGenerator.document) (path : str) : result unit := Ok tt.

(** A search provider that cannot be reached. *)
Definition offline_get_dict (params : list (str * pyval)) : result pyval :=
  Raise (External (py "offline")).

(** The reply of the specification's example: a JSON object between a
    greeting and trailing prose. *)
Definition embedded_reply : str :=
  dq "Sure! {'executive_summary':'X','key_findings':['a'],'recommendations':['b']} trailing prose".

(** A reply that is one JSON object, whose only string holds a closing
    brace. *)
Definition brace_in_string_reply : str := dq "{'executive_summary':'a}b'}".

(** A model reply with seven findings and six recommendations. *)
Definition long_reply : AIProcessor.response :=
  {| AIProcessor.status_code := 200;
     AIProcessor.text := [];
     AIProcessor.json :=
       Ok (PList [PDict [ (py "generated_text",
             PStr (dq "Here: {'key_findings':[1,2,3,4,5,6,7],'recommendations':'abcdef'}")) ]]) |}.

(** A report with every field populated, and one chart image. *)
Definition full_report : pyval :=
  PDict [ (py "title", PStr (py "Solar power"));
          (py "executive_summary", PStr (py "Solar capacity keeps growing."));
          (py "key_findings", PList [PStr (py "Costs fell"); PStr (py "Storage lags")]);
          (py "detailed_analysis", PStr (py "Module prices dropped year over year."));
          (py "data_points",
            PList [PDict [ (py "label", PStr (py "2023")); (py "value", PInt 3) ]]);
          (py "charts", PList [PStr (py "data:image/png;base64,iVBORw0KGgo=")]);
          (py "recommendations", PList [PStr (py "Invest in storage")]);
          (py "citations", PList [PStr (py "IEA 2024")]) ].

Definition one_chart : pyval :=
  PList [PDict [ (py "type", PStr (py "bar"));
                 (py "image", PStr (py "iVBORw0KGgo="));
                 (py "title", PStr (py "Data Overview")) ]].

(** A world in which every service answers: no tokens are configured, the
    plotting and PDF libraries accept every call. *)
Definition quiet_world : App.world :=
  {| App.repr := demo_repr;
     App.limits := Json.no_limits;
     App.hugging_face := None;
     App.savefig_b64 := demo_savefig;
     App.requests_post := fun _ _ => Raise (External (py "offline"));
     App.to_image_b64 := demo_to_image;
     App.serpapi_api_key := None;
     App.get_dict := offline_get_dict;
     App.pdf_pages := fun _ => Ok [];
     App.fpdf := demo_fpdf;
     App.b64decode := demo_b64decode;
     App.write_temp_png := demo_write_temp_png;
     App.unlink := demo_unlink;
     App.mktemp_pdf := demo_pdf_path;
     App.output := demo_output;
     App.gettempdir := py "/tmp";
     App.file_save := fun _ _ => Ok tt;
     App.os_remove := fun _ => Ok tt;
     App.describe := fun _ => py "error" |}.

Definition post_without_topic : App.request :=
  {| App.method := py "POST"; App.form_topic := None; App.files_document := None |}.

Definition post_solar : App.request :=
  {| App.method := py "POST";
     App.form_topic := Some (py "solar");
     App.files_document := None |}.

(** Two well-formed data points. *)
Definition two_points : pyval :=
  PList [ PDict [ (py "label", PStr (py "2023")); (py "value", PInt 3) ];
          PDict [ (py "label", PStr (py "2024")); (py "value", PInt 5) ] ].

(** A provider answer with a featured snippet and one organic result. *)
Definition search_answer : pyval :=
  PDict [ (py "answer_box",
            PDict [ (py "answer", PStr (py "About 1.6 TW in 2023")) ]);
          (py "organic_results",
            PList [ PDict [ (py "title", PStr (py "Solar outlook"));
                            (py "link", PStr (py "https://example.org/solar")) ] ]) ].

(** A report whose key findings arrived as one string. *)
Definition string_findings_report : pyval :=
  PDict [ (py "title", PStr (py "Solar power"));
          (py "key_findings", PStr (py "ab")) ].

(** An upload, a request that carries it, and a world in which the
    uploaded file cannot be read as a PDF. *)
Definition scanned_upload : App.upload := {| App.filename := py "scan.pdf" |}.

Definition post_with_upload : App.request :=
  {| App.method := py "POST";
     App.form_topic := Some (py "solar");
     App.files_document := Some scanned_upload |}.

Definition unreadable_world : App.world :=
  {| App.repr := demo_repr;
     App.limits := Json.no_limits;
     App.hugging_face := None;
     App.savefig_b64 := demo_savefig;
     App.requests_post := fun _ _ => Raise (External (py "offline"));
     App.to_image_b64 := demo_to_image;
     App.serpapi_api_key := None;
     App.get_dict := offline_get_dict;
     App.pdf_pages := fun _ => Raise (External (py "not a PDF"));
     App.fpdf := demo_fpdf;
     App.b64decode := demo_b64decode;
     App.write_temp_png := demo_write_temp_png;
     App.unlink := demo_unlink;
     App.mktemp_pdf := demo_pdf_path;
     App.output := demo_output;
     App.gettempdir := py "/tmp";
     App.file_save := fun _ _ => Ok tt;
     App.os_remove := fun _ => Ok tt;
     App.describe := fun _ => py "error" |}.






(** * Properties *)

Unset Implicit Arguments.

Example str_of_Z_ex : str_of_Z (-42) = py "-42" /\ str_of_Z 0 = py "0".
Proof. split; reflexivity. Qed.

(** ** The JSON decoder terminates within its fuel *)

Section JsonFuel.

Import Json.

Lemma skip_ws_length (s : str) : length (skip_ws s) <= length s.
Proof.
  induction s as [|c s IH]; simpl; [lia|].
  destruct (is_ws c); simpl; lia.
Qed.

Lemma digits_length (s d r : str) : digits s = (d, r) -> length r <= length s.
Proof.
  revert d r. induction s as [|c s IH]; simpl; intros d r H.
  - inversion H; simpl; lia.
  - destruct (is_digit c).
    + destruct (digits s) as [d' r'] eqn:E. inversion H; subst.
      specialize (IH _ _ eq_refl). lia.
    + inversion H; subst. simpl. lia.
Qed.

Lemma scanstring_shorter (n : nat) :
  forall s acc x r,
    length s <= n -> scanstring s acc = Some (x, r) -> length r < length s.
Proof.
  induction n as [|n IH]; intros s acc x r Hn H.
  - destruct s; simpl in *; [discriminate|lia].
  - destruct s as [|c t]; simpl in H; [discriminate|].
    simpl in Hn.
    repeat match type of H with
           | (if ?b then _ else _) = _ => destruct b
           | match ?l with [] => _ | _ :: _ => _ end = _ =>
               destruct l; simpl in Hn
           | match ?o with Some _ => _ | None => _ end = _ => destruct o
           | None = Some _ => discriminate H
           | Some _ = Some _ => inversion H; subst; clear H; simpl; lia
           | scanstring ?t _ = Some _ => apply IH in H; simpl in *; lia
           end.
Qed.

Lemma number_sign_length (s r : str) (b : bool) :
  number_sign s = (b, r) -> length r <= length s.
Proof.
  destruct s as [|c t]; simpl; intros H.
  - inversion H; simpl; lia.
  - destruct (c =? 45)%N; inversion H; subst; simpl; lia.
Qed.

Lemma number_int_shorter (s ip r : str) :
  number_int s = Some (ip, r) -> length r < length s.
Proof.
  destruct s as [|c t]; simpl; [discriminate|]. intros H.
  destruct (c =? 48)%N; [inversion H; subst; simpl; lia|].
  destruct ((49 <=? c) && (c <=? 57))%N; [|discriminate].
  destruct (digits t) as [d r'] eqn:E. inversion H; subst.
  apply digits_length in E. simpl. lia.
Qed.

Lemma number_frac_length (s f r : str) :
  number_frac s = (f, r) -> length r <= length s.
Proof.
  destruct s as [|c t]; simpl; intros H; [inversion H; simpl; lia|].
  destruct (c =? 46)%N; [|inversion H; simpl; lia].
  destruct (digits t) as [[|d0 d] r'] eqn:E; inversion H; subst; simpl; [lia|].
  apply digits_length in E. lia.
Qed.

Lemma number_exp_length (s r : str) (e : option Z) :
  number_exp s = (e, r) -> length r <= length s.
Proof.
  destruct s as [|c t]; simpl; intros H; [inversion H; simpl; lia|].
  destruct ((c =? 101) || (c =? 69))%N; [|inversion H; simpl; lia].
  destruct t as [|g t'].
  - simpl in H. inversion H; simpl; lia.
  - destruct (g =? 45)%N.
    + destruct (digits t') as [[|d0 d] r'] eqn:E; inversion H; subst; simpl; [lia|].
      apply digits_length in E. lia.
    + destruct (g =? 43)%N.
      * destruct (digits t') as [[|d0 d] r'] eqn:E; inversion H; subst; simpl; [lia|].
        apply digits_length in E. lia.
      * destruct (digits (g :: t')) as [[|d0 d] r'] eqn:E; inversion H; subst;
          simpl; [lia|].
        apply digits_length in E. simpl in E. lia.
Qed.

Lemma match_number_shorter (s r : str) (v : pyval) :
  match_number s = Some (v, r) -> length r < length s.
Proof.
  unfold match_number.
  destruct (number_sign s) as [negative s1] eqn:E1.
  destruct (number_int s1) as [[ip r1]|] eqn:E2; [|discriminate].
  destruct (number_frac r1) as [frac r2] eqn:E3.
  destruct (number_exp r2) as [ex r3] eqn:E4.
  apply number_sign_length in E1. apply number_int_shorter in E2.
  apply number_frac_length in E3. apply number_exp_length in E4.
  intros H. destruct frac, ex; inversion H; subst; lia.
Qed.

Lemma skipn_cons_shorter (n : nat) (c : char) (t : str) :
  length (skipn (S n) (c :: t)) < length (c :: t).
Proof. simpl. rewrite length_skipn. lia. Qed.

Local Opaque skipn startswith match_number.

Lemma scan_shorter (fuel : nat) :
  (forall s v r, scan_once fuel s = Parsed v r -> length r < length s) /\
  (forall s acc v r, parse_members fuel s acc = Parsed v r -> length r < length s) /\
  (forall s acc v r, parse_items fuel s acc = Parsed v r -> length r < length s).
Proof.
  induction fuel as [|fuel (IHs & IHm & IHi)].
  - repeat split; intros; discriminate.
  - repeat split.
    + intros s v r H. destruct s as [|c t]; simpl in H; [discriminate|].
      destruct (c =? 34)%N.
      { destruct (scanstring t []) as [[x r']|] eqn:E; [|discriminate].
        inversion H; subst. apply (scanstring_shorter (length t)) in E; simpl; lia. }
      destruct (c =? 123)%N.
      { pose proof (skip_ws_length t) as Hw.
        destruct (skip_ws t) as [|c' r']; [discriminate|].
        destruct (c' =? 125)%N.
        - inversion H; subst. simpl in *. lia.
        - apply IHm in H. simpl in *. lia. }
      destruct (c =? 91)%N.
      { pose proof (skip_ws_length t) as Hw.
        destruct (skip_ws t) as [|c' r']; [discriminate|].
        destruct (c' =? 93)%N.
        - inversion H; subst. simpl in *. lia.
        - apply IHi in H. simpl in *. lia. }
      repeat match type of H with
             | (if ?b then _ else _) = _ =>
                 destruct b; [inversion H; subst; apply skipn_cons_shorter|]
             end.
      destruct (match_number (c :: t)) as [[v' r']|] eqn:E; [|discriminate].
      inversion H; subst. apply match_number_shorter in E. exact E.
    + intros s acc v r H. destruct s as [|c t]; simpl in H; [discriminate|].
      destruct (c =? 34)%N; [|discriminate].
      destruct (scanstring t []) as [[key r0]|] eqn:E; [|discriminate].
      apply (scanstring_shorter (length t)) in E; [|lia].
      pose proof (skip_ws_length r0) as Hw0.
      destruct (skip_ws r0) as [|colon r1]; [discriminate|].
      destruct (colon =? 58)%N; [|discriminate].
      pose proof (skip_ws_length r1) as Hw1.
      destruct (scan_once fuel (skip_ws r1)) as [v' r2| |] eqn:Es; try discriminate.
      apply IHs in Es.
      pose proof (skip_ws_length r2) as Hw2.
      destruct (skip_ws r2) as [|d r3]; [discriminate|].
      destruct (d =? 125)%N.
      { inversion H; subst. simpl in *. lia. }
      destruct (d =? 44)%N; [|discriminate].
      apply IHm in H. pose proof (skip_ws_length r3). simpl in *. lia.
    + intros s acc v r H. simpl in H.
      destruct (scan_once fuel s) as [v' r0| |] eqn:Es; try discriminate.
      apply IHs in Es.
      pose proof (skip_ws_length r0) as Hw0.
      destruct (skip_ws r0) as [|d r1]; [discriminate|].
      destruct (d =? 93)%N.
      { inversion H; subst. simpl in *. lia. }
      destruct (d =? 44)%N; [|discriminate].
      apply IHi in H. pose proof (skip_ws_length r1). simpl in *. lia.
Qed.

Lemma scan_fuel_enough (fuel : nat) :
  (forall s, 2 * length s < fuel -> scan_once fuel s <> OutOfFuel) /\
  (forall s acc, 2 * length s + 1 < fuel -> parse_members fuel s acc <> OutOfFuel) /\
  (forall s acc, 2 * length s + 1 < fuel -> parse_items fuel s acc <> OutOfFuel).
Proof.
  induction fuel as [|fuel (IHs & IHm & IHi)].
  - repeat split; intros; lia.
  - repeat split.
    + intros s Hf. destruct s as [|c t]; simpl; [discriminate|]. simpl in Hf.
      destruct (c =? 34)%N.
      { destruct (scanstring t []) as [[x r']|]; discriminate. }
      destruct (c =? 123)%N.
      { pose proof (skip_ws_length t) as Hw.
        destruct (skip_ws t) as [|c' r']; [discriminate|].
        destruct (c' =? 125)%N; [discriminate|].
        apply IHm. simpl in *. lia. }
      destruct (c =? 91)%N.
      { pose proof (skip_ws_length t) as Hw.
        destruct (skip_ws t) as [|c' r']; [discriminate|].
        destruct (c' =? 93)%N; [discriminate|].
        apply IHi. simpl in *. lia. }
      repeat match goal with
             | |- (if ?b then _ else _) <> _ => destruct b; [discriminate|]
             end.
      destruct (match_number (c :: t)) as [[v' r']|]; discriminate.
    + intros s acc Hf. destruct s as [|c t]; simpl; [discriminate|]. simpl in Hf.
      destruct (c =? 34)%N; [|discriminate].
      destruct (scanstring t []) as [[key r0]|] eqn:E; [|discriminate].
      apply (scanstring_shorter (length t)) in E; [|lia].
      pose proof (skip_ws_length r0) as Hw0.
      destruct (skip_ws r0) as [|colon r1]; [discriminate|].
      destruct (colon =? 58)%N; [|discriminate].
      pose proof (skip_ws_length r1) as Hw1.
      destruct (scan_once fuel (skip_ws r1)) as [v' r2| |] eqn:Es; try discriminate.
      * apply (proj1 (scan_shorter fuel)) in Es.
        pose proof (skip_ws_length r2) as Hw2.
        destruct (skip_ws r2) as [|d r3]; [discriminate|].
        destruct (d =? 125)%N; [discriminate|].
        destruct (d =? 44)%N; [|discriminate].
        apply IHm. pose proof (skip_ws_length r3). simpl in *. lia.
      * exfalso. revert Es. apply IHs. simpl in *. lia.
    + intros s acc Hf. simpl.
      destruct (scan_once fuel s) as [v' r0| |] eqn:Es; try discriminate.
      * apply (proj1 (scan_shorter fuel)) in Es.
        pose proof (skip_ws_length r0) as Hw0.
        destruct (skip_ws r0) as [|d r1]; [discriminate|].
        destruct (d =? 93)%N; [discriminate|].
        destruct (d =? 44)%N; [|discriminate].
        apply IHi. pose proof (skip_ws_length r1). simpl in *. lia.
      * exfalso. revert Es. apply IHs. lia.
Qed.

Local Transparent skipn startswith match_number.

(** [json.loads] never fails for lack of fuel: a text it rejects is
    rejected by the grammar. *)
Lemma loads_fuel_enough (s : str) :
  scan_once (S (2 * length (skip_ws s))) (skip_ws s) <> OutOfFuel.
Proof. apply (proj1 (scan_fuel_enough _)). lia. Qed.

End JsonFuel.

(** [re.findall] does not depend on the fuel once it exceeds the length of
    the text. *)
Lemma findall_fuel (r : Re.regex) (fuel1 fuel2 : nat) (s : str) :
  length s < fuel1 -> length s < fuel2 ->
  Re.findall_from fuel1 r s = Re.findall_from fuel2 r s.
Proof.
  revert fuel2 s. induction fuel1 as [|fuel1 IH]; intros fuel2 s H1 H2; [lia|].
  destruct fuel2 as [|fuel2]; [lia|]. simpl.
  assert (Hadv : match s with [] => [] | _ :: t => Re.findall_from fuel1 r t end
               = match s with [] => [] | _ :: t => Re.findall_from fuel2 r t end).
  { destruct s as [|c t]; [reflexivity|]. apply IH; simpl in *; lia. }
  rewrite Hadv. destruct (Re.match_at r s) as [rest|]; [|reflexivity].
  f_equal. destruct (Nat.ltb_spec (length rest) (length s)); [|reflexivity].
  apply IH; lia.
Qed.

(** ** JSON extraction *)

(** JSON embedded in surrounding prose is recovered. *)
Lemma extract_json_embedded_example :
  AIProcessor._extract_json Json.no_limits (PStr embedded_reply)
  = Ok (PDict [ (py "executive_summary", PStr (py "X"));
                (py "key_findings", PList [PStr (py "a")]);
                (py "recommendations", PList [PStr (py "b")]) ]).
Proof. vm_compute. reflexivity. Qed.

(** C1, at the failing input: the reply [{"executive_summary":"a}b"}] is a
    valid JSON object in full ([json.loads] returns the dict), both
    patterns cut the candidate at the brace inside the string, the
    candidate does not parse, and [_extract_json] returns [None]. *)
Theorem extract_json_misses_brace_in_string :
  Json.loads Json.no_limits brace_in_string_reply
    = Ok (PDict [ (py "executive_summary", PStr (py "a}b")) ]) /\
  map (fun p => Re.findall p brace_in_string_reply) AIProcessor.json_patterns
    = [ [dq "{'executive_summary':'a}"]; [dq "{'executive_summary':'a}"] ] /\
  Json.loads Json.no_limits (dq "{'executive_summary':'a}") = Raise JSONDecodeError /\
  AIProcessor._extract_json Json.no_limits (PStr brace_in_string_reply) = Ok PNone.
Proof. vm_compute. repeat split; reflexivity. Qed.

(** Nesting deeper than the first pattern allows: an inner object is
    returned, not the object the text starts with. *)
Lemma extract_json_returns_inner_object :
  AIProcessor._extract_json Json.no_limits (PStr (dq "{'a':{'b':{'c':1}}}"))
  = Ok (PDict [ (py "b", PDict [ (py "c", PInt 1) ]) ]).
Proof. vm_compute. reflexivity. Qed.

(** What the defect costs: on that reply the synthesizer discards the
    model's summary and returns the fallback report. *)
Lemma brace_in_string_reply_falls_back
  (repr : pyval -> str) (savefig_b64 : str -> list Z -> result str)
  (topic document_text : str) (web_results : pyval) :
  AIProcessor.generate_report_structure repr Json.no_limits (Some (py "hf_token"))
    savefig_b64
    (fun _ _ => Ok {| AIProcessor.status_code := 200;
                      AIProcessor.text := [];
                      AIProcessor.json :=
                        Ok (PList [PDict [ (py "generated_text",
                                             PStr brace_in_string_reply) ]]) |})
    topic document_text web_results
  = AIProcessor._create_fallback_structure repr savefig_b64 topic document_text
      web_results.
Proof.
  unfold AIProcessor.generate_report_structure.
  change (py "hf_token") with (104%N :: py "f_token").
  cbv beta iota.
  destruct (AIProcessor._format_web_results repr web_results) as [ctx|e];
    [|reflexivity].
  cbn [bind].
  change (AIProcessor._extract_json Json.no_limits (PStr brace_in_string_reply))
    with (@Ok pyval PNone).
  cbn. destruct (AIProcessor._create_fallback_structure _ _ _ _ _); reflexivity.
Qed.

(** Whatever [_extract_json] returns is [None] or a dict. *)
Lemma first_dict_is_dict limits matches v :
  AIProcessor.first_dict limits matches = Ok (Some v) -> exists d, v = PDict d.
Proof.
  induction matches as [|m rest IH]; simpl; [discriminate|].
  destruct (Json.loads limits m) as [[| | | | |xs|d]|e]; auto.
  - intros H; inversion H; eauto.
  - destruct e; auto; discriminate.
Qed.

Lemma scan_patterns_is_dict limits patterns s v :
  AIProcessor.scan_patterns limits patterns s = Ok v ->
  v = PNone \/ exists d, v = PDict d.
Proof.
  induction patterns as [|p ps IH]; simpl.
  - intros H; inversion H; auto.
  - destruct (AIProcessor.first_dict limits (Re.findall p s)) as [[w|]|e] eqn:E;
      simpl; try discriminate; auto.
    intros H; inversion H; subst. right. eapply first_dict_is_dict; eauto.
Qed.

Lemma extract_json_is_dict limits text v :
  AIProcessor._extract_json limits text = Ok v ->
  v = PNone \/ exists d, v = PDict d.
Proof.
  destruct text; try discriminate.
  unfold AIProcessor._extract_json. apply scan_patterns_is_dict.
Qed.

(** ** The fallback report *)

Section Fallback.

Variable repr : pyval -> str.
Variable savefig_b64 : str -> list Z -> result str.

Local Abbreviation fallback := (AIProcessor._create_fallback_structure repr savefig_b64).

(** C3: with an empty document and no web results (None or an empty
    list), every report the fallback returns has the single sentinel
    finding "Processing complete" and exactly two charts; and it does
    return one whenever the two placeholder plots render. *)
Theorem fallback_without_inputs (topic : str) (web_results : pyval) :
  truthy web_results = false ->
  (forall r, fallback topic [] web_results = Ok r ->
     getitem r (py "key_findings") = Ok (PList [PStr (py "Processing complete")]) /\
     exists charts, getitem r (py "charts") = Ok charts /\ len charts = Ok 2) /\
  (forall png1 png2,
     savefig_b64 (topic ++ py " Trend 1") AIProcessor.default_data = Ok png1 ->
     savefig_b64 (topic ++ py " Trend 2") AIProcessor.default_data = Ok png2 ->
     exists r, fallback topic [] web_results = Ok r).
Proof.
  intros Hweb. unfold AIProcessor._create_fallback_structure,
    AIProcessor._generate_chart.
  rewrite Hweb. cbn [bind].
  split.
  - intros r.
    destruct (savefig_b64 (topic ++ py " Trend 1") _) as [p1|e1]; cbn [bind];
      [|discriminate].
    destruct (savefig_b64 (topic ++ py " Trend 2") _) as [p2|e2]; cbn [bind];
      [|discriminate].
    intros H; inversion H; subst; clear H. split; [reflexivity|].
    eexists; split; reflexivity.
  - intros png1 png2 H1 H2. rewrite H1; cbn [bind]. rewrite H2; cbn [bind]. eauto.
Qed.

End Fallback.

Lemma fallback_without_inputs_witness :
  truthy PNone = false /\
  exists r, AIProcessor._create_fallback_structure demo_repr demo_savefig (py "solar") [] PNone = Ok r.
Proof.
  split; [reflexivity|].
  exact (proj2 (fallback_without_inputs demo_repr demo_savefig (py "solar") PNone eq_refl)
           _ _ eq_refl eq_refl).
Defined.

(** ** The chart renderer *)

Section Charts.

Variable to_image_b64 :
  ChartGenerator.chart_kind -> list pyval -> list pyval -> result str.

Local Abbreviation generate_charts := (ChartGenerator.generate_charts to_image_b64).
Local Abbreviation _create_bar_chart := (ChartGenerator._create_bar_chart to_image_b64).
Local Abbreviation _create_pie_chart := (ChartGenerator._create_pie_chart to_image_b64).

(** C4: absent data points or fewer than two give no chart and no attempt;
    two to six data points have a bar chart and then a pie chart
    attempted, and the charts returned are those of the two that were
    rendered; more than six have only a bar chart attempted. *)
Theorem generate_charts_attempts (dps : list pyval) :
  generate_charts PNone = Ok ([], []) /\
  (length dps < 2 -> generate_charts (PList dps) = Ok ([], [])) /\
  (2 <= length dps <= 6 ->
     generate_charts (PList dps)
     = Ok ((if truthy (_create_bar_chart (PList dps))
            then [_create_bar_chart (PList dps)] else []) ++
           (if truthy (_create_pie_chart (PList dps))
            then [_create_pie_chart (PList dps)] else []),
           [ChartGenerator.Bar; ChartGenerator.Pie])) /\
  (6 < length dps ->
     generate_charts (PList dps)
     = Ok (if truthy (_create_bar_chart (PList dps))
           then [_create_bar_chart (PList dps)] else [],
           [ChartGenerator.Bar])).
Proof.
  unfold ChartGenerator.generate_charts.
  split; [reflexivity|].
  destruct dps as [|d dps]; cbn [truthy negb len bind length].
  - repeat split; intros; try reflexivity; lia.
  - destruct (Nat.ltb_spec (S (length dps)) 2) as [Hlt|Hge];
      destruct (Nat.leb_spec (S (length dps)) 6) as [Hle|Hgt];
      repeat split; intros; try lia; try reflexivity.
    all: destruct (truthy (ChartGenerator._create_bar_chart _ _));
      try destruct (truthy (ChartGenerator._create_pie_chart _ _)); reflexivity.
Qed.

End Charts.

Lemma generate_charts_attempts_witness :
  2 <= length [PInt 1; PInt 2] <= 6 /\
  exists charts,
    ChartGenerator.generate_charts demo_to_image (PList [PInt 1; PInt 2])
    = Ok (charts, [ChartGenerator.Bar; ChartGenerator.Pie]).
Proof.
  split; [simpl; lia|]. eexists.
  apply (proj1 (proj2 (proj2 (generate_charts_attempts demo_to_image [PInt 1; PInt 2])))).
  simpl; lia.
Defined.

(** ** The search client *)

Section Search.

Variable api_key : option str.
Variable get_dict : list (str * pyval) -> result pyval.

Local Abbreviation search := (WebSearchService.search api_key get_dict).
Local Abbreviation search_news := (WebSearchService.search_news api_key get_dict).
Local Abbreviation search_params := (WebSearchService.search_params api_key).
Local Abbreviation news_params := (WebSearchService.news_params api_key).

(** C5: without a key (unset or empty), or when the provider call raises,
    or when parsing its answer raises, [search] returns the one fallback
    result, whose source is "example.com". *)
Theorem search_falls_back (query : str) (count : Z) :
  api_key = None \/ api_key = Some [] \/
  (exists e, get_dict (search_params query count) = Raise e) \/
  (exists results e,
     get_dict (search_params query count) = Ok results /\
     WebSearchService._parse_results results = Raise e) ->
  exists d,
    search query count = PList [d] /\
    getitem d (py "source") = Ok (PStr (py "example.com")) /\
    PList [d] = WebSearchService._get_fallback_results.
Proof.
  intros H. exists WebSearchService.fallback_result.
  split; [|split; reflexivity].
  unfold WebSearchService.search, WebSearchService.search_body.
  destruct H as [-> | [-> | H]]; try reflexivity.
  destruct api_key as [[|c k]|]; try reflexivity.
  destruct H as [[e H] | (results & e & H & Hp)]; rewrite H; cbn [bind recover];
    [|rewrite Hp]; reflexivity.
Qed.

(** C8: when the provider call raises, or parsing its answer raises, or its
    answer carries no news results (an error payload), [search_news]
    returns the empty list, whatever the key is (a missing key has no
    branch of its own); and it never returns the fallback result of
    [search]. *)
Theorem search_news_failure_is_empty (query : str) (count : Z) :
  ((exists e, get_dict (news_params query count) = Raise e) ->
   search_news query count = PList []) /\
  (forall results,
     get_dict (news_params query count) = Ok results ->
     (exists e, WebSearchService._parse_news_results results = Raise e) ->
     search_news query count = PList []) /\
  (forall fields,
     get_dict (news_params query count) = Ok (PDict fields) ->
     lookup fields (py "news_results") = None ->
     search_news query count = PList []) /\
  search_news query count <> WebSearchService._get_fallback_results.
Proof.
  unfold WebSearchService.search_news, WebSearchService.search_news_body.
  repeat split.
  - intros [e H]. rewrite H. reflexivity.
  - intros results H [e Hp]. rewrite H. cbn [bind]. rewrite Hp. reflexivity.
  - intros fields H Hl. rewrite H. cbn [bind].
    unfold WebSearchService._parse_news_results. cbn [get bind]. rewrite Hl.
    reflexivity.
  - destruct (get_dict _) as [results|e]; cbn [bind recover]; [|discriminate].
    unfold WebSearchService._parse_news_results.
    destruct (get results _ _) as [news|e]; cbn [bind recover]; [|discriminate].
    destruct (iter news) as [rs|e]; cbn [bind recover]; [|discriminate].
    destruct rs as [|r rs]; cbn [mapM]; [discriminate|].
    destruct (get r (py "title") _) as [a|e]; cbn [bind]; [|discriminate].
    destruct (get r (py "snippet") _) as [b|e]; cbn [bind]; [|discriminate].
    destruct (get r (py "link") _) as [c|e]; cbn [bind]; [|discriminate].
    destruct (get r (py "source") _) as [d|e]; cbn [bind]; [|discriminate].
    destruct (get r (py "date") _) as [f|e]; cbn [bind]; [|discriminate].
    destruct (mapM _ rs) as [ys|e]; cbn [bind recover]; discriminate.
Qed.

End Search.

Lemma search_falls_back_witness :
  exists d,
    WebSearchService.search None offline_get_dict (py "solar") 5 = PList [d] /\
    getitem d (py "source") = Ok (PStr (py "example.com")) /\
    PList [d] = WebSearchService._get_fallback_results.
Proof.
  apply (search_falls_back None offline_get_dict (py "solar") 5).
  left; reflexivity.
Defined.

Lemma search_news_failure_is_empty_witness :
  (exists e, offline_get_dict (WebSearchService.news_params None (py "solar") 5) = Raise e) /\
  WebSearchService.search_news None offline_get_dict (py "solar") 5 = PList [].
Proof.
  assert (H : exists e,
            offline_get_dict (WebSearchService.news_params None (py "solar") 5) = Raise e)
    by (eexists; reflexivity).
  split; [exact H|].
  exact (proj1 (search_news_failure_is_empty None offline_get_dict (py "solar") 5) H).
Defined.

(** ** The request handler *)

(** C7: a POST request whose form has no topic field is answered with
    status 400 and success false, and no pipeline stage is entered. *)
Theorem missing_topic_rejected (w : App.world) (req : App.request) :
  App.method req = py "POST" ->
  App.form_topic req = None ->
  exists error,
    App.generate_report w req
    = ({| App.status := 400;
          App.body := PDict [ (py "success", PBool false); (py "error", error) ] |},
       []).
Proof.
  intros Hm Ht. unfold App.generate_report. rewrite Hm, Ht.
  eexists. reflexivity.
Qed.

Lemma missing_topic_rejected_witness :
  App.method post_without_topic = py "POST" /\
  App.form_topic post_without_topic = None /\
  exists error,
    App.generate_report quiet_world post_without_topic
    = ({| App.status := 400;
          App.body := PDict [ (py "success", PBool false); (py "error", error) ] |},
       []).
Proof.
  split; [reflexivity|]. split; [reflexivity|].
  apply (missing_topic_rejected quiet_world post_without_topic); reflexivity.
Defined.

(** ** The synthesizer *)

Ltac bind_ok H :=
  match type of H with
  | bind ?m _ = Ok _ =>
      let x := fresh "x" in
      let E := fresh "E" in
      destruct m as [x|] eqn:E; cbn [bind] in H; [|discriminate H]
  end.

Lemma mapM_length {A B} (f : A -> result B) (l : list A) (ys : list B) :
  mapM f l = Ok ys -> length ys = length l.
Proof.
  revert ys. induction l as [|a l IH]; simpl; intros ys H.
  - inversion H; reflexivity.
  - destruct (f a); [|discriminate]. destruct (mapM f l); [|discriminate].
    inversion H; subst. simpl. f_equal. apply IH. reflexivity.
Qed.

Lemma slice_to_len (v v' : pyval) (n : nat) :
  slice_to v n = Ok v' -> exists m, len v' = Ok m /\ m <= n.
Proof.
  destruct v; simpl; try discriminate; intros H; inversion H; subst; simpl;
    eexists; (split; [reflexivity|]); rewrite length_firstn; lia.
Qed.

Lemma slice_iter_length (v head : pyval) (rs : list pyval) (n : nat) :
  slice_to v n = Ok head -> iter head = Ok rs -> length rs <= n.
Proof.
  destruct v; simpl; try discriminate; intros H; inversion H; subst; simpl;
    intros H'; inversion H'; subst; rewrite ?length_map, length_firstn; lia.
Qed.

Section Synthesizer.

Variable repr : pyval -> str.
Variable limits : str -> option exn.
Variable api_token : option str.
Variable savefig_b64 : str -> list Z -> result str.
Variable requests_post : str -> str -> result AIProcessor.response.

Local Abbreviation fallback := (AIProcessor._create_fallback_structure repr savefig_b64).
Local Abbreviation generate_report_structure :=
  (AIProcessor.generate_report_structure repr limits api_token savefig_b64 requests_post).

Lemma fallback_well_formed (topic document_text : str) (web_results r : pyval) :
  fallback topic document_text web_results = Ok r -> well_formed_report r.
Proof.
  unfold AIProcessor._create_fallback_structure. intros H.
  bind_ok H. bind_ok H. bind_ok H. bind_ok H.
  inversion H; subst; clear H.
  do 4 eexists. split; [reflexivity|].
  split; [|split; eexists; (split; [reflexivity|simpl; lia])].
  assert (Hlen : length x0 <= 4).
  { destruct (truthy web_results).
    - bind_ok E0. bind_ok E0. bind_ok E0. inversion E0; subst.
      match goal with
      | Hs : slice_to _ _ = Ok _, Hi : iter _ = Ok _, Hm : mapM _ _ = Ok _ |- _ =>
          pose proof (slice_iter_length _ _ _ _ Hs Hi); apply mapM_length in Hm
      end.
      rewrite length_app. destruct document_text; simpl; lia.
    - inversion E0; subst. destruct document_text; simpl; lia. }
  destruct x0; eexists; (split; [reflexivity|simpl in *; lia]).
Qed.

Lemma limit_items_report (es kf ch rc : pyval) (validated : list (str * pyval)) :
  AIProcessor.limit_items
    [ (py "executive_summary", es); (py "key_findings", kf);
      (py "charts", ch); (py "recommendations", rc) ]
    [py "key_findings"; py "charts"; py "recommendations"] = Ok validated ->
  exists kf' ch' rc',
    validated = [ (py "executive_summary", es); (py "key_findings", kf');
                  (py "charts", ch'); (py "recommendations", rc') ] /\
    slice_to kf 5 = Ok kf' /\ slice_to ch 5 = Ok ch' /\ slice_to rc 5 = Ok rc'.
Proof.
  intros H.
  change (kf5 <- slice_to kf 5 ;;
          ch5 <- slice_to ch 5 ;;
          rc5 <- slice_to rc 5 ;;
          Ok [ (py "executive_summary", es); (py "key_findings", kf5);
               (py "charts", ch5); (py "recommendations", rc5) ] = Ok validated) in H.
  bind_ok H. bind_ok H. bind_ok H. inversion H; subst.
  do 3 eexists. split; [reflexivity|]. repeat split; assumption.
Qed.

Lemma generate_report_structure_well_formed
  (topic document_text : str) (web_results r : pyval) :
  generate_report_structure topic document_text web_results = Ok r ->
  well_formed_report r.
Proof.
  unfold AIProcessor.generate_report_structure.
  destruct api_token as [[|c token]|]; try apply fallback_well_formed.
  unfold try_except.
  match goal with
  | |- match ?body with _ => _ end = _ -> _ => destruct body as [v|e] eqn:Hbody
  end; [|apply fallback_well_formed].
  intros Hv; inversion Hv; subst v; clear Hv.
  bind_ok Hbody. bind_ok Hbody.
  destruct (negb (AIProcessor.status_code x0 =? 200)%Z);
    [eapply fallback_well_formed; eassumption|].
  bind_ok Hbody. bind_ok Hbody. bind_ok Hbody. bind_ok Hbody.
  destruct (negb (truthy x4)); [eapply fallback_well_formed; eassumption|].
  do 5 bind_ok Hbody. bind_ok Hbody. inversion Hbody; subst r; clear Hbody.
  match goal with
  | H : AIProcessor.limit_items _ _ = Ok _ |- _ =>
      apply limit_items_report in H;
      destruct H as (kf' & ch' & rc' & -> & Hkf & Hch & Hrc)
  end.
  do 4 eexists. split; [reflexivity|].
  repeat split; eapply slice_to_len; eassumption.
Qed.

End Synthesizer.

Lemma well_formed_field_lengths (r : pyval) (key : str) :
  well_formed_report r ->
  In key [py "key_findings"; py "charts"; py "recommendations"] ->
  exists n, AIProcessor.field_length r key = Ok n /\ n <= 5.
Proof.
  intros (es & kf & ch & rc & -> & Hkf & Hch & Hrc) Hin.
  unfold AIProcessor.field_length.
  simpl in Hin. destruct Hin as [<- | [<- | [<- | []]]]; assumption.
Qed.

Lemma well_formed_keys (r : pyval) :
  well_formed_report r ->
  keys r = AIProcessor.report_keys /\ has r (py "data_points") = Ok false /\
  get r (py "data_points") (PList []) = Ok (PList []) /\ truthy r = true.
Proof.
  intros (es & kf & ch & rc & -> & _). repeat split.
Qed.

(** C2: every report [generate_report_structure] returns, and every report
    the fallback returns, has at most five key findings, at most five
    charts and at most five recommendations. *)
Theorem report_lists_at_most_five
  (repr : pyval -> str) (limits : str -> option exn) (api_token : option str)
  (savefig_b64 : str -> list Z -> result str)
  (requests_post : str -> str -> result AIProcessor.response)
  (topic document_text : str) (web_results r : pyval) :
  AIProcessor.generate_report_structure repr limits api_token savefig_b64
    requests_post topic document_text web_results = Ok r \/
  AIProcessor._create_fallback_structure repr savefig_b64
    topic document_text web_results = Ok r ->
  forall key, In key [py "key_findings"; py "charts"; py "recommendations"] ->
  exists n, AIProcessor.field_length r key = Ok n /\ n <= 5.
Proof.
  intros H key Hkey. apply well_formed_field_lengths; [|assumption].
  destruct H as [H|H].
  - eapply generate_report_structure_well_formed; eassumption.
  - eapply fallback_well_formed; eassumption.
Qed.

Lemma report_lists_at_most_five_witness :
  exists r,
    AIProcessor.generate_report_structure demo_repr Json.no_limits (Some (py "hf_token"))
      demo_savefig (fun _ _ => Ok long_reply) (py "solar") [] PNone = Ok r /\
    forall key, In key [py "key_findings"; py "charts"; py "recommendations"] ->
    exists n, AIProcessor.field_length r key = Ok n /\ n <= 5.
Proof.
  eexists. split; [vm_compute; reflexivity|].
  apply (report_lists_at_most_five demo_repr Json.no_limits (Some (py "hf_token"))
           demo_savefig (fun _ _ => Ok long_reply) (py "solar") [] PNone).
  left. vm_compute. reflexivity.
Defined.

(** C9: a report returned by the synthesizer has exactly the four keys
    executive_summary, key_findings, charts, recommendations, so no
    data_points key; the handler therefore hands the chart renderer the
    empty list, and a reply with status 200 has charts_count 0. *)
Theorem no_data_points_no_charts (w : App.world) :
  (forall topic document_text web_results r,
     App.ai_generate_report_structure w topic document_text web_results = Ok r ->
     keys r = AIProcessor.report_keys /\ has r (py "data_points") = Ok false) /\
  (forall req resp log,
     App.generate_report w req = (resp, log) ->
     (forall data_points,
        In (App.RenderCharts data_points) log -> data_points = PList []) /\
     (App.status resp = 200%Z ->
      getitem (App.body resp) (py "charts_count") = Ok (PInt 0))).
Proof.
  split.
  - intros topic document_text web_results r H.
    apply generate_report_structure_well_formed in H.
    apply well_formed_keys in H. tauto.
  - intros req resp log. unfold App.generate_report.
    destruct (str_eqb _ _).
    { intros H; inversion H; subst; simpl. split; [tauto|discriminate]. }
    destruct (App.form_topic req) as [[|c topic]|];
      try (intros H; inversion H; subst; simpl; split; [tauto|discriminate]).
    unfold App.pipeline.
    set (pre := match App.files_document req with
                | Some f => _
                | None => _
                end).
    assert (Hpre : forall dp, ~ In (App.RenderCharts dp) (snd pre)).
    { subst pre. destruct (App.files_document req) as [f|]; [|simpl; tauto].
      destruct (App.filename f); simpl; [tauto|].
      intros dp [H|[]]; discriminate. }
    destruct pre as [document_text log0]. simpl in Hpre.
    destruct (App.ai_generate_report_structure w _ _ _) as [r|e] eqn:Hr; cbn [bind].
    + apply generate_report_structure_well_formed in Hr.
      apply well_formed_keys in Hr. destruct Hr as (_ & _ & Hget & Htruthy).
      rewrite Htruthy. cbn [negb]. cbv iota beta. rewrite Hget.
      change (App.chart_generate_charts w (PList [])) with
        (@Ok (list pyval * list ChartGenerator.chart_kind) ([], [])).
      cbv iota beta.
      destruct (App.report_generate_pdf w r (PList [])) as [[pdf_path doc]|e].
      * destruct (len _) as [n|e]; intros H; inversion H; subst; simpl;
          (split; [|first [reflexivity | discriminate]]);
          intros dp Hin; repeat (rewrite in_app_iff in Hin; simpl in Hin);
          destruct Hin as [[[[Hin|[Hin|[]]]|[Hin|[]]]|[Hin|[]]]|[Hin|[]]];
          try discriminate; try (exfalso; eapply Hpre; eassumption);
          inversion Hin; reflexivity.
      * intros H; inversion H; subst; simpl. split; [|discriminate].
        intros dp Hin; repeat (rewrite in_app_iff in Hin; simpl in Hin);
          destruct Hin as [[[[Hin|[Hin|[]]]|[Hin|[]]]|[Hin|[]]]|[Hin|[]]];
          try discriminate; try (exfalso; eapply Hpre; eassumption);
          inversion Hin; reflexivity.
    + intros H; inversion H; subst; simpl. split; [|discriminate].
      intros dp Hin; repeat (rewrite in_app_iff in Hin; simpl in Hin).
      destruct Hin as [[Hin|[Hin|[]]]|[Hin|[]]];
        try discriminate; exfalso; eapply Hpre; eassumption.
Qed.

(** ** The assembler *)

Import ReportGenerator.

Section Assembler.

Variable repr : pyval -> str.
Variable fpdf : document -> pdf_op -> result unit.
Variable b64decode : pyval -> result (list N).
Variable write_temp_png : list N -> result str.
Variable unlink : str -> result unit.
Variable mktemp_pdf : str.
Variable output : document -> str -> result unit.

Local Abbreviation emit := (ReportGenerator.emit fpdf).
Local Abbreviation bullets := (ReportGenerator.bullets repr fpdf).
Local Abbreviation add_chart := (ReportGenerator.add_chart fpdf b64decode write_temp_png unlink).
Local Abbreviation generate_pdf :=
  (ReportGenerator.generate_pdf repr fpdf b64decode write_temp_png unlink mktemp_pdf output).









Section Accepting.

(** The library carries out every call and the file can be written. *)
Hypothesis fpdf_accepts : forall d op, fpdf d op = Ok tt.
Hypothesis output_succeeds : forall d p, output d p = Ok tt.

Lemma emit_ok (doc : document) (op : pdf_op) : emit doc op = Ok (doc ++ [op]).
Proof. unfold ReportGenerator.emit. rewrite fpdf_accepts. reflexivity. Qed.

Lemma bullets_ok (items : list pyval) (h : Z) (doc : document) :
  exists doc', bullets doc h items = Ok doc'.
Proof.
  revert doc. induction items as [|x items IH]; simpl; intros doc; [eauto|].
  rewrite emit_ok. cbn [bind]. apply IH.
Qed.

Lemma safe_text_default_is_str (text : pyval) :
  exists s, safe_text repr text default_text = PStr s.
Proof.
  unfold safe_text, default_text.
  destruct (negb (truthy text) || _); eexists; reflexivity.
Qed.





End Accepting.


End Assembler.



(** ** [safe_text] *)

Lemma strip_nonempty (s : str) : strip s <> [] -> s <> [].
Proof. intros H ->. apply H. reflexivity. Qed.

Lemma safe_text_of_str (repr : pyval -> str) (s : str) (default : pyval) :
  strip s <> [] -> safe_text repr (PStr s) default = PStr s.
Proof.
  intros H. unfold safe_text. cbn [to_str].
  destruct s as [|c s]; [exfalso; apply H; reflexivity|].
  cbn [truthy negb orb].
  destruct (strip (c :: s)); [exfalso; apply H; reflexivity|reflexivity].
Qed.

(** C10, as amended: for every input and every string default, [safe_text]
    is idempotent and returns a string, which is non-empty whenever the
    default is (as the built-in "N/A" is).  Falsy inputs (None, the empty
    string, 0, False, empty containers) and inputs whose string form is
    blank map to the default; every other input maps to its string form. *)
Theorem safe_text_idempotent (repr : pyval -> str) (text : pyval) (default : str) :
  safe_text repr (safe_text repr text (PStr default)) (PStr default)
    = safe_text repr text (PStr default) /\
  (exists s, safe_text repr text (PStr default) = PStr s /\ (default <> [] -> s <> [])) /\
  (truthy text = false \/ strip (to_str repr text) = [] ->
   safe_text repr text (PStr default) = PStr default) /\
  (truthy text = true -> strip (to_str repr text) <> [] ->
   safe_text repr text (PStr default) = PStr (to_str repr text)).
Proof.
  assert (Hdef : safe_text repr (PStr default) (PStr default) = PStr default).
  { unfold safe_text. cbn [to_str].
    destruct (negb (truthy (PStr default)) || _); reflexivity. }
  assert (Hcases :
    (safe_text repr text (PStr default) = PStr default /\
     (truthy text = false \/ strip (to_str repr text) = [])) \/
    (safe_text repr text (PStr default) = PStr (to_str repr text) /\
     truthy text = true /\ strip (to_str repr text) <> [])).
  { unfold safe_text. destruct (truthy text); cbn [negb orb]; [|left; auto].
    destruct (strip (to_str repr text)) eqn:Hs; [left; auto|].
    right. repeat split. discriminate. }
  destruct Hcases as [[He Hc] | (He & Ht & Hs)]; rewrite He.
  - split; [exact Hdef|].
    split; [eexists; split; [reflexivity|auto]|].
    split; [auto|]. intros Ht Hs. destruct Hc as [Hc|Hc]; congruence.
  - split; [apply safe_text_of_str; exact Hs|].
    split; [eexists; split; [reflexivity|intros _; apply strip_nonempty; exact Hs]|].
    split; [intros [H|H]; congruence | auto].
Qed.

Lemma safe_text_idempotent_witness :
  truthy (PInt 7) = true /\ strip (to_str demo_repr (PInt 7)) <> [] /\
  safe_text demo_repr (PInt 7) (PStr (py "N/A")) = PStr (py "7").
Proof.
  split; [reflexivity|]. split; [vm_compute; discriminate|].
  apply (proj2 (proj2 (proj2 (safe_text_idempotent demo_repr (PInt 7) (py "N/A"))))).
  - reflexivity.
  - vm_compute; discriminate.
Defined.

(** C10 as stated fails: with the empty string as default the result is
    the empty string; with a default that is not a string the second
    application differs from the first; and the falsy input 0 maps to the
    default, not to its string form "0". *)
Lemma safe_text_counterexample :
  safe_text demo_repr PNone (PStr []) = PStr [] /\
  (safe_text demo_repr PNone (PInt 5) = PInt 5 /\
   safe_text demo_repr (safe_text demo_repr PNone (PInt 5)) (PInt 5) = PStr (py "5")) /\
  (safe_text demo_repr (PInt 0) default_text = PStr (py "N/A") /\
   to_str demo_repr (PInt 0) = py "0").
Proof. vm_compute. repeat split; reflexivity. Qed.

Lemma no_data_points_no_charts_witness :
  exists resp log,
    App.generate_report quiet_world post_solar = (resp, log) /\
    App.status resp = 200%Z /\
    getitem (App.body resp) (py "charts_count") = Ok (PInt 0) /\
    In (App.RenderCharts (PList [])) log.
Proof.
  eexists. eexists. split; [vm_compute; reflexivity|].
  split; [reflexivity|]. split.
  - apply (proj2 (proj2 (no_data_points_no_charts quiet_world) post_solar _ _ eq_refl)).
    reflexivity.
  - vm_compute. tauto.
Defined.

(** ** What [_extract_json] can return *)

Lemma is_suffix_refl (s : str) : is_suffix s s.
Proof. exists []. reflexivity. Qed.

Lemma is_suffix_trans (a b c : str) : is_suffix a b -> is_suffix b c -> is_suffix a c.
Proof. intros [p ->] [q ->]. exists (q ++ p). apply app_assoc. Qed.

Lemma is_suffix_tail (c : char) (t s' : str) : is_suffix s' t -> is_suffix s' (c :: t).
Proof. intros [p ->]. exists (c :: p). reflexivity. Qed.

Lemma is_suffix_length (s' s : str) : is_suffix s' s -> length s' <= length s.
Proof. intros [p ->]. rewrite length_app. lia. Qed.

(** The matcher hands its continuation only suffixes of the text. *)
Lemma run_suffix (A : Type) (r : Re.regex) :
  forall (s : str) (k : str -> option A) (a : A),
    Re.run r s k = Some a -> exists s', is_suffix s' s /\ k s' = Some a.
Proof.
  induction r as [c|cs| |r1 IH1 r2 IH2|r1 IH1|r1 IH1]; intros s k a H.
  - destruct s as [|x t]; simpl in H; [discriminate|].
    destruct (N.eqb x c); [|discriminate].
    exists t. split; [exists [x]; reflexivity|exact H].
  - destruct s as [|x t]; simpl in H; [discriminate|].
    destruct (existsb (N.eqb x) cs); [discriminate|].
    exists t. split; [exists [x]; reflexivity|exact H].
  - destruct s as [|x t]; simpl in H; [discriminate|].
    exists t. split; [exists [x]; reflexivity|exact H].
  - simpl in H. apply IH1 in H. destruct H as (s1 & Hs1 & H).
    apply IH2 in H. destruct H as (s2 & Hs2 & H).
    exists s2. split; [eapply is_suffix_trans; eassumption|exact H].
  - cbn [Re.run] in H. revert H. generalize (length s) at 1. intros n. revert s.
    induction n as [|n IHn]; intros s H.
    + exists s. split; [apply is_suffix_refl|exact H].
    + destruct (Re.run r1 s _) as [a'|] eqn:E in H.
      * inversion H; subst a'. apply IH1 in E. destruct E as (s1 & Hs1 & E).
        destruct (length s1 <? length s); [|discriminate].
        apply IHn in E. destruct E as (s2 & Hs2 & E).
        exists s2. split; [eapply is_suffix_trans; eassumption|exact E].
      * exists s. split; [apply is_suffix_refl|exact H].
  - cbn [Re.run] in H. revert H. generalize (length s) at 1. intros n. revert s.
    induction n as [|n IHn]; intros s H.
    + exists s. split; [apply is_suffix_refl|exact H].
    + destruct (k s) as [a'|] eqn:Ek.
      * inversion H; subst a'. exists s. split; [apply is_suffix_refl|exact Ek].
      * apply IH1 in H. destruct H as (s1 & Hs1 & E).
        destruct (length s1 <? length s); [|discriminate].
        apply IHn in E. destruct E as (s2 & Hs2 & E).
        exists s2. split; [eapply is_suffix_trans; eassumption|exact E].
Qed.

Lemma match_at_suffix (r : Re.regex) (s rest : str) :
  Re.match_at r s = Some rest -> is_suffix rest s.
Proof.
  unfold Re.match_at. intros H. apply run_suffix in H.
  destruct H as (s' & Hs & H). inversion H; subst. exact Hs.
Qed.

(** Every match [re.findall] lists is a contiguous piece of the text. *)
Lemma findall_from_piece (r : Re.regex) (fuel : nat) :
  forall (s m : str),
    In m (Re.findall_from fuel r s) -> exists pre post, s = pre ++ m ++ post.
Proof.
  induction fuel as [|fuel IH]; intros s m H; simpl in H; [contradiction|].
  assert (Hadv : In m (match s with [] => [] | _ :: t => Re.findall_from fuel r t end) ->
                 exists pre post, s = pre ++ m ++ post).
  { destruct s as [|c t]; [contradiction|]. intros Hin.
    destruct (IH _ _ Hin) as (pre & post & ->). exists (c :: pre), post. reflexivity. }
  destruct (Re.match_at r s) as [rest|] eqn:E; [|auto].
  destruct H as [<- | H].
  - exists [], (skipn (length s - length rest) s). simpl.
    symmetry. apply firstn_skipn.
  - destruct (length rest <? length s); [|auto].
    apply match_at_suffix in E. destruct E as [p ->].
    destruct (IH _ _ H) as (pre & post & ->).
    exists (p ++ pre), post. rewrite app_assoc. reflexivity.
Qed.

(** A match of a pattern that opens with a literal starts with it. *)
Lemma findall_from_first (c : char) (r : Re.regex) (fuel : nat) :
  forall (s m : str),
    In m (Re.findall_from fuel (Re.Seq (Re.Chr c) r) s) -> exists m', m = c :: m'.
Proof.
  induction fuel as [|fuel IH]; intros s m H; simpl in H; [contradiction|].
  assert (Hadv : In m (match s with
                       | [] => []
                       | _ :: t => Re.findall_from fuel (Re.Seq (Re.Chr c) r) t
                       end) -> exists m', m = c :: m').
  { destruct s as [|x t]; [contradiction|]. apply IH. }
  destruct (Re.match_at (Re.Seq (Re.Chr c) r) s) as [rest|] eqn:E; [|auto].
  destruct H as [<- | H].
  - unfold Re.match_at in E. cbn [Re.run] in E.
    destruct s as [|x t]; [discriminate|].
    destruct (N.eqb_spec x c) as [->|]; [|discriminate].
    apply run_suffix in E. destruct E as (s' & Hs & E). inversion E; subst s'.
    apply is_suffix_length in Hs.
    replace (length (c :: t) - length rest) with (S (length t - length rest))
      by (change (length (c :: t)) with (S (length t)); lia).
    cbn [firstn]. eauto.
  - destruct (length rest <? length s); [apply (IH _ _ H)|auto].
Qed.

Section Extraction.

Variable limits : str -> option exn.

Lemma first_dict_from_match (matches : list str) (v : pyval) :
  AIProcessor.first_dict limits matches = Ok (Some v) ->
  exists m d, In m matches /\ v = PDict d /\ Json.loads limits m = Ok (PDict d).
Proof.
  induction matches as [|m rest IH]; simpl; [discriminate|].
  destruct (Json.loads limits m) as [[| | | | |xs|d]|e] eqn:E;
    try (intros H; destruct (IH H) as (m' & d' & Hin & Hv & Hl); eauto 6).
  - intros H; inversion H; subst. eauto 6.
  - destruct e; try discriminate.
    intros H; destruct (IH H) as (m' & d' & Hin & Hv & Hl); eauto 6.
Qed.

(** X1: whatever [_extract_json] returns is [None] or a dict, and a dict it
    returns is [json.loads] of a contiguous piece of the text that starts
    with an opening brace: nothing is made up. *)
Theorem extract_json_sound (text v : pyval) :
  AIProcessor._extract_json limits text = Ok v ->
  v = PNone \/
  exists s d pre m post,
    text = PStr s /\ v = PDict d /\
    s = pre ++ (AIProcessor.lbrace :: m) ++ post /\
    Json.loads limits (AIProcessor.lbrace :: m) = Ok (PDict d).
Proof.
  destruct text as [| | | |s| |]; try discriminate.
  unfold AIProcessor._extract_json, AIProcessor.json_patterns.
  cbn [AIProcessor.scan_patterns].
  intros H.
  destruct (AIProcessor.first_dict limits (Re.findall _ s)) as [[w|]|e] eqn:E1;
    cbn [bind] in H; try discriminate.
  - inversion H; subst. right.
    apply first_dict_from_match in E1. destruct E1 as (m & d & Hin & -> & Hl).
    destruct (findall_from_first _ _ _ _ _ Hin) as [m' ->].
    destruct (findall_from_piece _ _ _ _ Hin) as (pre & post & Hs).
    exists s, d, pre, m', post. auto.
  - match type of H with
    | bind ?c _ = _ => destruct c as [[w|]|e] eqn:E2
    end; cbn [bind] in H; try discriminate.
    + inversion H; subst. right.
      apply first_dict_from_match in E2. destruct E2 as (m & d & Hin & -> & Hl).
      destruct (findall_from_first _ _ _ _ _ Hin) as [m' ->].
      destruct (findall_from_piece _ _ _ _ Hin) as (pre & post & Hs).
      exists s, d, pre, m', post. auto.
    + inversion H. left. reflexivity.
Qed.

(** X2: a text without an opening brace has no candidate: [_extract_json]
    returns [None] (and [json.loads] is never consulted, so nothing is
    raised). *)
Theorem extract_json_without_brace (s : str) :
  existsb (N.eqb AIProcessor.lbrace) s = false ->
  AIProcessor._extract_json limits (PStr s) = Ok PNone.
Proof.
  intros Hs.
  assert (Hnone : forall r, Re.findall (Re.Seq (Re.Chr AIProcessor.lbrace) r) s = []).
  { intros r. destruct (Re.findall _ s) as [|m ms] eqn:E; [reflexivity|].
    exfalso.
    assert (Hin : In m (Re.findall (Re.Seq (Re.Chr AIProcessor.lbrace) r) s))
      by (rewrite E; left; reflexivity).
    destruct (findall_from_first _ _ _ _ _ Hin) as [m' ->].
    destruct (findall_from_piece _ _ _ _ Hin) as (pre & post & Heq).
    rewrite Heq in Hs. rewrite existsb_app in Hs. simpl in Hs.
    rewrite orb_true_r in Hs. discriminate. }
  unfold AIProcessor._extract_json, AIProcessor.json_patterns.
  cbn [AIProcessor.scan_patterns]. rewrite !Hnone. reflexivity.
Qed.

End Extraction.

Lemma extract_json_sound_witness :
  exists v,
    AIProcessor._extract_json Json.no_limits (PStr embedded_reply) = Ok v /\
    (v = PNone \/
     exists s d pre m post,
       PStr embedded_reply = PStr s /\ v = PDict d /\
       s = pre ++ (AIProcessor.lbrace :: m) ++ post /\
       Json.loads Json.no_limits (AIProcessor.lbrace :: m) = Ok (PDict d)).
Proof.
  eexists. split; [vm_compute; reflexivity|].
  apply (extract_json_sound Json.no_limits (PStr embedded_reply)).
  vm_compute. reflexivity.
Defined.

Lemma extract_json_without_brace_witness :
  existsb (N.eqb AIProcessor.lbrace) (py "no report today") = false /\
  AIProcessor._extract_json Json.no_limits (PStr (py "no report today")) = Ok PNone.
Proof.
  split; [reflexivity|].
  apply (extract_json_without_brace Json.no_limits (py "no report today")).
  reflexivity.
Defined.

(** ** The synthesizer's reports *)

Lemma slice_to_populated (v v' : pyval) :
  truthy v = true -> slice_to v 5 = Ok v' -> populated_field v'.
Proof.
  intros Ht H. destruct v as [| | | |s|l|]; try discriminate H; unfold slice_to in H.
  - right. exists (firstn 5 s). split; [congruence|]. rewrite length_firstn.
    destruct s as [|c s]; [discriminate|]. cbn [length]. lia.
  - left. exists (firstn 5 l). split; [congruence|]. rewrite length_firstn.
    destruct l as [|x l]; [discriminate|]. cbn [length]. lia.
Qed.

Lemma Ok_inj {A} (a b : A) : Ok a = Ok b -> a = b.
Proof. congruence. Qed.

Lemma py_or_truthy (a b : pyval) : truthy b = true -> truthy (py_or a b) = true.
Proof. unfold py_or. destruct (truthy a) eqn:E; auto. Qed.

Section SynthesizerMore.

Variable repr : pyval -> str.
Variable limits : str -> option exn.
Variable api_token : option str.
Variable savefig_b64 : str -> list Z -> result str.
Variable requests_post : str -> str -> result AIProcessor.response.

Local Abbreviation fallback := (AIProcessor._create_fallback_structure repr savefig_b64).
Local Abbreviation generate_report_structure :=
  (AIProcessor.generate_report_structure repr limits api_token savefig_b64 requests_post).

Lemma fallback_populated (topic document_text : str) (web_results r : pyval) :
  fallback topic document_text web_results = Ok r -> populated_report r.
Proof.
  intros H. pose proof (fallback_well_formed _ _ _ _ _ _ H) as Hwf.
  unfold AIProcessor._create_fallback_structure in H.
  bind_ok H. bind_ok H. bind_ok H. bind_ok H.
  inversion H; subst; clear H.
  destruct Hwf as (es & kf & ch & rc & Heq & (n & Hn & Hle) & _).
  inversion Heq; subst; clear Heq.
  do 4 eexists. split; [reflexivity|].
  split; [|split; left; eexists; (split; [reflexivity|simpl; lia])].
  left. eexists. split; [reflexivity|].
  simpl in Hn. inversion Hn; subst.
  match goal with |- context [match ?l with [] => _ | _ :: _ => _ end] =>
    destruct l; simpl in *; lia end.
Qed.

Lemma generate_report_structure_populated
  (topic document_text : str) (web_results r : pyval) :
  generate_report_structure topic document_text web_results = Ok r ->
  populated_report r.
Proof.
  unfold AIProcessor.generate_report_structure.
  destruct api_token as [[|c token]|]; try apply fallback_populated.
  unfold try_except.
  match goal with
  | |- match ?body with _ => _ end = _ -> _ => destruct body as [v|e] eqn:Hbody
  end; [|apply fallback_populated].
  intros Hv; inversion Hv; subst v; clear Hv.
  bind_ok Hbody. bind_ok Hbody.
  match type of Hbody with
  | (if ?b then _ else _) = _ => destruct b
  end; [eapply fallback_populated; eassumption|].
  bind_ok Hbody. bind_ok Hbody. bind_ok Hbody. bind_ok Hbody.
  match type of Hbody with
  | (if ?b then _ else _) = _ => destruct b
  end; [eapply fallback_populated; eassumption|].
  do 5 bind_ok Hbody. bind_ok Hbody. inversion Hbody; subst r; clear Hbody.
  match goal with
  | H : AIProcessor.limit_items _ _ = Ok _ |- _ =>
      apply limit_items_report in H;
      destruct H as (kf' & ch' & rc' & -> & Hkf & Hch & Hrc)
  end.
  do 4 eexists. split; [reflexivity|].
  repeat split.
  - eapply slice_to_populated; [|exact Hkf]. apply py_or_truthy. reflexivity.
  - eapply slice_to_populated; [|exact Hch].
    match goal with
    | Hc : (if truthy ?c then _ else _) = Ok ?x |- truthy ?x = true =>
        destruct (truthy c) eqn:Htc;
        [ inversion Hc; subst; exact Htc
        | bind_ok Hc; bind_ok Hc; inversion Hc; reflexivity ]
    end.
  - eapply slice_to_populated; [|exact Hrc]. apply py_or_truthy. reflexivity.
Qed.

(** X3: every report the synthesizer returns is fully populated: each of
    key_findings, charts and recommendations holds at least one item. *)
Theorem report_lists_never_empty
  (topic document_text : str) (web_results r : pyval) :
  generate_report_structure topic document_text web_results = Ok r \/
  fallback topic document_text web_results = Ok r ->
  forall key, In key [py "key_findings"; py "charts"; py "recommendations"] ->
  exists n, AIProcessor.field_length r key = Ok n /\ 1 <= n.
Proof.
  intros H key Hkey.
  assert (Hp : populated_report r).
  { destruct H as [H|H];
      [eapply generate_report_structure_populated | eapply fallback_populated];
      eassumption. }
  destruct Hp as (es & kf & ch & rc & -> & Hkf & Hch & Hrc).
  unfold AIProcessor.field_length.
  simpl in Hkey. destruct Hkey as [<- | [<- | [<- | []]]].
  - destruct Hkf as [(l & -> & Hl) | (s & -> & Hl)]; eexists;
      (split; [reflexivity|lia]).
  - destruct Hch as [(l & -> & Hl) | (s & -> & Hl)]; eexists;
      (split; [reflexivity|lia]).
  - destruct Hrc as [(l & -> & Hl) | (s & -> & Hl)]; eexists;
      (split; [reflexivity|lia]).
Qed.

Lemma generate_report_structure_raises
  (topic document_text : str) (web_results : pyval) (e : exn) :
  generate_report_structure topic document_text web_results = Raise e ->
  fallback topic document_text web_results = Raise e.
Proof.
  unfold AIProcessor.generate_report_structure.
  destruct api_token as [[|c token]|]; auto.
  unfold try_except.
  match goal with
  | |- match ?body with _ => _ end = _ -> _ => destruct body as [v|e']
  end; [discriminate|auto].
Qed.

Lemma In_firstn {A} (n : nat) (l : list A) (x : A) : In x (firstn n l) -> In x l.
Proof.
  revert l. induction n as [|n IH]; intros [|a l]; simpl; try tauto.
  intros [H|H]; auto.
Qed.

Lemma mapM_ok {A B} (f : A -> result B) (l : list A) :
  (forall x, In x l -> exists y, f x = Ok y) -> exists ys, mapM f l = Ok ys.
Proof.
  induction l as [|a l IH]; simpl; intros H; [eauto|].
  destruct (H a (or_introl eq_refl)) as [y ->].
  destruct IH as [ys ->]; [intros x Hx; apply H; right; exact Hx|]. eauto.
Qed.

(** On a list of dicts the fallback returns a report whenever the two
    placeholder plots render. *)
Lemma fallback_returns
  (topic document_text : str) (results : list pyval) :
  Forall is_dict results ->
  (exists png, savefig_b64 (topic ++ py " Trend 1") AIProcessor.default_data = Ok png) ->
  (exists png, savefig_b64 (topic ++ py " Trend 2") AIProcessor.default_data = Ok png) ->
  exists r, fallback topic document_text (PList results) = Ok r.
Proof.
  intros Hd [p1 H1] [p2 H2].
  assert (Hrefs : exists refs,
            mapM (fun r =>
                    title <- get r (py "title") (PStr (py "Source")) ;;
                    Ok (PStr (py "Reference: " ++ to_str repr title)))
                 (firstn 3 results) = Ok refs).
  { apply mapM_ok. intros x Hx. apply In_firstn in Hx.
    rewrite Forall_forall in Hd. destruct (Hd x Hx) as [kvs ->].
    cbn [get bind]. eauto. }
  destruct Hrefs as [refs Hrefs].
  unfold AIProcessor._create_fallback_structure, AIProcessor._generate_chart.
  rewrite H1, H2.
  destruct (truthy (PList results)); unfold slice_to, iter, len; cbn [bind];
    [rewrite Hrefs; cbn [bind]|]; eauto.
Qed.

(** X4: the fallback report has one to four key findings (a line for
    the document and a reference for each of the first three results, or
    the placeholder), exactly two charts and two recommendations, and a
    summary that opens with "Analysis of" and the topic. *)
Theorem fallback_report_sizes (topic document_text : str) (web_results r : pyval) :
  fallback topic document_text web_results = Ok r ->
  (exists n, AIProcessor.field_length r (py "key_findings") = Ok n /\ 1 <= n <= 4) /\
  AIProcessor.field_length r (py "charts") = Ok 2 /\
  AIProcessor.field_length r (py "recommendations") = Ok 2 /\
  exists rest,
    getitem r (py "executive_summary") = Ok (PStr (py "Analysis of " ++ topic ++ rest)).
Proof.
  unfold AIProcessor._create_fallback_structure. intros H.
  bind_ok H. bind_ok H. bind_ok H. bind_ok H.
  inversion H; subst; clear H.
  split; [|split; [reflexivity|split; [reflexivity|]]].
  - assert (Hlen : length x0 <= 4).
    { destruct (truthy web_results).
      - bind_ok E0. bind_ok E0. bind_ok E0. inversion E0; subst.
        match goal with
        | Hs : slice_to _ _ = Ok _, Hi : iter _ = Ok _, Hm : mapM _ _ = Ok _ |- _ =>
            pose proof (slice_iter_length _ _ _ _ Hs Hi); apply mapM_length in Hm
        end.
        rewrite length_app. destruct document_text; simpl; lia.
      - inversion E0; subst. destruct document_text; simpl; lia. }
    unfold AIProcessor.field_length.
    destruct x0; eexists; (split; [reflexivity|simpl in *; lia]).
  - assert (Hsum : exists rest, x = py "Analysis of " ++ topic ++ rest).
    { destruct (truthy web_results).
      + bind_ok E. apply Ok_inj in E. rewrite <- E.
        destruct document_text; eexists; rewrite <- !app_assoc; reflexivity.
      + apply Ok_inj in E. rewrite <- E.
        destruct document_text;
          [exists []; rewrite app_nil_r|eexists; rewrite <- !app_assoc]; reflexivity. }
    destruct Hsum as [rest ->]. exists rest. reflexivity.
Qed.

(** X5: the synthesizer fails only with its fallback.  Whatever it
    raises, the fallback raises on the same arguments: every failure of
    the model path (transport error, status other than 200, unreadable
    body, no JSON object, a field that cannot be sliced) ends in the
    fallback.  And on a list of dicts, which is what the search client
    returns, it returns a report whenever the two placeholder plots
    render. *)
Theorem synthesizer_fails_only_with_fallback (topic document_text : str) :
  (forall web_results e,
     generate_report_structure topic document_text web_results = Raise e ->
     fallback topic document_text web_results = Raise e) /\
  (forall results,
     Forall is_dict results ->
     (exists png, savefig_b64 (topic ++ py " Trend 1") AIProcessor.default_data = Ok png) ->
     (exists png, savefig_b64 (topic ++ py " Trend 2") AIProcessor.default_data = Ok png) ->
     exists r, generate_report_structure topic document_text (PList results) = Ok r).
Proof.
  split.
  - intros web_results e. apply generate_report_structure_raises.
  - intros results Hd H1 H2.
    destruct (generate_report_structure topic document_text (PList results))
      as [r|e] eqn:E; [eauto|].
    apply generate_report_structure_raises in E.
    destruct (fallback_returns topic document_text results Hd H1 H2) as [r Hr].
    congruence.
Qed.

(** X6: [_format_web_results] is empty for no results and reads only the
    first five results of a list. *)
Theorem format_web_results_first_five (results : list pyval) :
  AIProcessor._format_web_results repr PNone = Ok [] /\
  AIProcessor._format_web_results repr (PList []) = Ok [] /\
  AIProcessor._format_web_results repr (PList results)
  = AIProcessor._format_web_results repr (PList (firstn 5 results)).
Proof.
  split; [reflexivity|]. split; [reflexivity|].
  unfold AIProcessor._format_web_results.
  destruct results as [|r results]; [reflexivity|].
  change (AIProcessor.format_entries repr 1 (firstn 5 (r :: results))
          = AIProcessor.format_entries repr 1 (firstn 5 (firstn 5 (r :: results)))).
  rewrite firstn_firstn. reflexivity.
Qed.

End SynthesizerMore.

Lemma report_lists_never_empty_witness :
  exists r,
    AIProcessor.generate_report_structure demo_repr Json.no_limits (Some (py "hf_token"))
      demo_savefig (fun _ _ => Ok long_reply) (py "solar") [] PNone = Ok r /\
    forall key, In key [py "key_findings"; py "charts"; py "recommendations"] ->
    exists n, AIProcessor.field_length r key = Ok n /\ 1 <= n.
Proof.
  eexists. split; [vm_compute; reflexivity|].
  apply (report_lists_never_empty demo_repr Json.no_limits (Some (py "hf_token"))
           demo_savefig (fun _ _ => Ok long_reply) (py "solar") [] PNone).
  left. vm_compute. reflexivity.
Defined.

Lemma fallback_report_sizes_witness :
  exists r,
    AIProcessor._create_fallback_structure demo_repr demo_savefig
      (py "solar") (py "Panels.") (PList [WebSearchService.fallback_result]) = Ok r /\
    (exists n, AIProcessor.field_length r (py "key_findings") = Ok n /\ 1 <= n <= 4) /\
    AIProcessor.field_length r (py "charts") = Ok 2 /\
    AIProcessor.field_length r (py "recommendations") = Ok 2 /\
    exists rest,
      getitem r (py "executive_summary") = Ok (PStr (py "Analysis of " ++ py "solar" ++ rest)).
Proof.
  eexists. split; [vm_compute; reflexivity|].
  apply (fallback_report_sizes demo_repr demo_savefig
           (py "solar") (py "Panels.") (PList [WebSearchService.fallback_result])).
  vm_compute. reflexivity.
Defined.

(** ** The shape of search results *)

Lemma mapM_Forall {A B} (f : A -> result B) (P : B -> Prop) (l : list A) (ys : list B) :
  (forall x y, f x = Ok y -> P y) -> mapM f l = Ok ys -> Forall P ys.
Proof.
  intros Hf. revert ys. induction l as [|a l IH]; simpl; intros ys H.
  - inversion H. constructor.
  - destruct (f a) as [y|] eqn:E; [|discriminate].
    destruct (mapM f l) as [ys'|]; [|discriminate].
    inversion H; subst. constructor; eauto.
Qed.

Section SearchMore.

Variable api_key : option str.
Variable get_dict : list (str * pyval) -> result pyval.

Local Abbreviation search := (WebSearchService.search api_key get_dict).
Local Abbreviation search_news := (WebSearchService.search_news api_key get_dict).

(** X7: what [_parse_results] returns is a list of dicts with exactly the
    keys title, description, url, source, one per organic result in
    order, preceded by the featured answer when the answer box is
    non-empty; the featured entry has source "Featured Snippet". *)
Theorem parse_results_shape (results v : pyval) :
  WebSearchService._parse_results results = Ok v ->
  exists items organic rs answer_box,
    v = PList items /\
    Forall (fun d => is_dict d /\ keys d = WebSearchService.result_keys) items /\
    get results (py "organic_results") (PList []) = Ok organic /\
    iter organic = Ok rs /\
    get results (py "answer_box") (PDict []) = Ok answer_box /\
    length items = length rs + (if truthy answer_box then 1 else 0) /\
    (truthy answer_box = true ->
     exists d rest, items = d :: rest /\
       getitem d (py "source") = Ok (PStr (py "Featured Snippet"))).
Proof.
  unfold WebSearchService._parse_results. intros H.
  bind_ok H. bind_ok H. bind_ok H. bind_ok H.
  match goal with
  | Hm : mapM _ _ = Ok ?parsed |- _ =>
      assert (Hall : Forall (fun d => is_dict d /\ keys d = WebSearchService.result_keys) parsed);
      [ eapply mapM_Forall; [|exact Hm]; cbv beta; intros r y Hy;
        do 4 bind_ok Hy; inversion Hy; subst; split; [eexists|]; reflexivity
      | apply mapM_length in Hm ]
  end.
  destruct (truthy x2) eqn:Ht.
  - do 4 bind_ok H. inversion H; subst; clear H.
    match goal with
    | Hi : iter ?n = Ok ?r, Hg : get results (py "answer_box") _ = Ok ?ab |- _ =>
        eexists; exists n, r, ab
    end.
    repeat split; try eassumption; try reflexivity.
    + constructor; [split; [eexists|]; reflexivity|exact Hall].
    + rewrite Ht. simpl. lia.
    + intros _. do 2 eexists. split; reflexivity.
  - inversion H; subst; clear H.
    match goal with
    | Hi : iter ?n = Ok ?r, Hg : get results (py "answer_box") _ = Ok ?ab |- _ =>
        eexists; exists n, r, ab
    end.
    repeat split; try eassumption; try reflexivity.
    + rewrite Ht. lia.
    + congruence.
Qed.

Lemma parse_results_dicts (results v : pyval) :
  WebSearchService._parse_results results = Ok v ->
  exists items, v = PList items /\
    Forall (fun d => is_dict d /\ keys d = WebSearchService.result_keys) items.
Proof.
  unfold WebSearchService._parse_results. intros H.
  bind_ok H. bind_ok H. bind_ok H. bind_ok H.
  match goal with
  | Hm : mapM _ _ = Ok ?parsed |- _ =>
      assert (Hall : Forall (fun d => is_dict d /\ keys d = WebSearchService.result_keys) parsed);
      [ eapply mapM_Forall; [|exact Hm]; cbv beta; intros r y Hy;
        do 4 bind_ok Hy; inversion Hy; subst; split; [eexists|]; reflexivity
      | ]
  end.
  destruct (truthy x2).
  - do 4 bind_ok H. inversion H; subst; clear H.
    eexists. split; [reflexivity|].
    constructor; [split; [eexists|]; reflexivity|exact Hall].
  - inversion H; subst; clear H. eauto.
Qed.

Lemma search_items (query : str) (count : Z) :
  exists items,
    search query count = PList items /\
    Forall (fun d => is_dict d /\ keys d = WebSearchService.result_keys) items.
Proof.
  unfold WebSearchService.search, WebSearchService.search_body.
  assert (Hfb : exists items,
            WebSearchService._get_fallback_results = PList items /\
            Forall (fun d => is_dict d /\ keys d = WebSearchService.result_keys) items).
  { eexists. split; [reflexivity|].
    constructor; [split; [eexists|]; reflexivity|constructor]. }
  destruct api_key as [[|c k]|]; try exact Hfb.
  destruct (get_dict _) as [results|e]; cbn [bind recover]; [|exact Hfb].
  destruct (WebSearchService._parse_results results) as [v|e] eqn:E;
    cbn [recover]; [|exact Hfb].
  apply parse_results_dicts in E.
  destruct E as (items & -> & Hall). eauto.
Qed.

Lemma parse_news_results_shape (results v : pyval) :
  WebSearchService._parse_news_results results = Ok v ->
  exists items news rs,
    v = PList items /\
    Forall (fun d => is_dict d /\ keys d = WebSearchService.news_keys) items /\
    get results (py "news_results") (PList []) = Ok news /\
    iter news = Ok rs /\
    length items = length rs.
Proof.
  unfold WebSearchService._parse_news_results. intros H.
  bind_ok H. bind_ok H. bind_ok H. inversion H; subst; clear H.
  match goal with
  | Hi : iter ?n = Ok ?r, Hm : mapM _ ?r = Ok ?p |- _ => exists p, n, r
  end.
  repeat split; try assumption.
  - match goal with
    | Hm : mapM _ _ = Ok _ |- _ => eapply mapM_Forall; [|exact Hm]
    end.
    cbv beta. intros r y Hy.
    do 5 bind_ok Hy. inversion Hy; subst. split; [eexists|]; reflexivity.
  - eapply mapM_length; eassumption.
Qed.

Lemma search_news_items (query : str) (count : Z) :
  exists items,
    search_news query count = PList items /\
    Forall (fun d => is_dict d /\ keys d = WebSearchService.news_keys) items.
Proof.
  unfold WebSearchService.search_news, WebSearchService.search_news_body.
  destruct (get_dict _) as [results|e]; cbn [bind recover];
    [|exists []; split; [reflexivity|constructor]].
  destruct (WebSearchService._parse_news_results results) as [v|e] eqn:E;
    cbn [recover]; [|exists []; split; [reflexivity|constructor]].
  apply parse_news_results_shape in E.
  destruct E as (items & news & rs & -> & Hall & _). eauto.
Qed.

(** X8: both search entry points always return a list of dicts, whatever
    the key and the provider do: [search] with the keys title,
    description, url and source, [search_news] with these and date. *)
Theorem search_returns_results (query : str) (count : Z) :
  (exists items,
     search query count = PList items /\
     Forall (fun d => is_dict d /\ keys d = WebSearchService.result_keys) items) /\
  (exists items,
     search_news query count = PList items /\
     Forall (fun d => is_dict d /\ keys d = WebSearchService.news_keys) items).
Proof. split; [apply search_items|apply search_news_items]. Qed.

End SearchMore.

Lemma parse_results_shape_witness :
  exists v,
    WebSearchService._parse_results search_answer = Ok v /\
    exists items organic rs answer_box,
      v = PList items /\
      Forall (fun d => is_dict d /\ keys d = WebSearchService.result_keys) items /\
      get search_answer (py "organic_results") (PList []) = Ok organic /\
      iter organic = Ok rs /\
      get search_answer (py "answer_box") (PDict []) = Ok answer_box /\
      length items = length rs + (if truthy answer_box then 1 else 0) /\
      (truthy answer_box = true ->
       exists d rest, items = d :: rest /\
         getitem d (py "source") = Ok (PStr (py "Featured Snippet"))).
Proof.
  eexists. split; [vm_compute; reflexivity|].
  apply (parse_results_shape search_answer). vm_compute. reflexivity.
Defined.

(** ** Charts and documents *)

Lemma mapM_raises {A B} (f : A -> result B) (l : list A) (x : A) :
  In x l -> (exists e, f x = Raise e) -> exists e, mapM f l = Raise e.
Proof.
  induction l as [|a l IH]; simpl; [tauto|]. intros [->|Hin] Hx.
  - destruct Hx as [e ->]. eauto.
  - destruct (f a); [|eauto]. destruct (IH Hin Hx) as [e ->]. eauto.
Qed.

Section ChartsMore.

Variable to_image_b64 :
  ChartGenerator.chart_kind -> list pyval -> list pyval -> result str.

Local Abbreviation generate_charts := (ChartGenerator.generate_charts to_image_b64).
Local Abbreviation create_chart := (ChartGenerator.create_chart to_image_b64).

Lemma create_chart_result (k : ChartGenerator.chart_kind) (data_points : pyval) :
  create_chart k data_points = PNone \/
  exists image, create_chart k data_points = ChartGenerator.rendered k image.
Proof.
  unfold ChartGenerator.create_chart.
  destruct (iter data_points) as [dps|]; cbn [bind recover]; auto.
  destruct (mapM _ dps) as [labels|]; cbn [bind recover]; auto.
  destruct (mapM _ dps) as [values|]; cbn [bind recover]; auto.
  destruct (to_image_b64 k labels values) as [img|]; cbn [bind recover]; auto.
  right. exists img. reflexivity.
Qed.

(** X9: [generate_charts] returns at most two charts, a bar chart before a
    pie chart, each a dict with its kind's fixed type and title and the
    ChartGenerator.rendered image. *)
Theorem generate_charts_result
  (data_points : pyval) (charts : list pyval) (attempts : list ChartGenerator.chart_kind) :
  generate_charts data_points = Ok (charts, attempts) ->
  exists bars pies,
    charts = bars ++ pies /\
    (bars = [] \/ exists image, bars = [ChartGenerator.rendered ChartGenerator.Bar image]) /\
    (pies = [] \/ exists image, pies = [ChartGenerator.rendered ChartGenerator.Pie image]).
Proof.
  unfold ChartGenerator.generate_charts,
    ChartGenerator._create_bar_chart, ChartGenerator._create_pie_chart.
  intros H. bind_ok H.
  destruct x; [inversion H; exists [], []; auto|].
  assert (Hbar : forall k,
            (if truthy (create_chart k data_points)
             then [] ++ [create_chart k data_points] else [])
            = [] \/
            exists image,
              (if truthy (create_chart k data_points)
               then [] ++ [create_chart k data_points] else [])
              = [ChartGenerator.rendered k image]).
  { intros k. destruct (create_chart_result k data_points) as [->|[img ->]];
      [left; reflexivity|right; exists img; reflexivity]. }
  destruct (len data_points) as [n|].
  - destruct (n <=? 6).
    + inversion H; subst; clear H.
      exists (if truthy (create_chart ChartGenerator.Bar data_points)
              then [] ++ [create_chart ChartGenerator.Bar data_points] else []),
             (if truthy (create_chart ChartGenerator.Pie data_points)
              then [] ++ [create_chart ChartGenerator.Pie data_points] else []).
      split; [|split; apply Hbar].
      destruct (truthy (create_chart ChartGenerator.Pie data_points));
        [reflexivity|rewrite app_nil_r; reflexivity].
    + inversion H; subst; clear H. eexists. exists [].
      split; [rewrite app_nil_r; reflexivity|]. split; [apply Hbar|auto].
  - inversion H; subst; clear H. eexists. exists [].
    split; [rewrite app_nil_r; reflexivity|]. split; [apply Hbar|auto].
Qed.

(** X10: one data point without a label, or without a value, spoils both
    charts: no chart is returned, and nothing is raised. *)
Theorem generate_charts_malformed_point (dps : list pyval) (dp : pyval) :
  In dp dps ->
  (exists e, getitem dp (py "label") = Raise e) \/
  (exists e, getitem dp (py "value") = Raise e) ->
  exists attempts, generate_charts (PList dps) = Ok ([], attempts).
Proof.
  intros Hin Hbad.
  assert (Hnone : forall k, create_chart k (PList dps) = PNone).
  { intros k. unfold ChartGenerator.create_chart. cbn [iter bind].
    destruct Hbad as [Hbad|Hbad].
    - destruct (mapM_raises (fun dp => getitem dp (py "label")) dps dp Hin Hbad)
        as [e ->]. reflexivity.
    - destruct (mapM (fun dp => getitem dp (py "label")) dps); [|reflexivity].
      cbn [bind].
      destruct (mapM_raises (fun dp => getitem dp (py "value")) dps dp Hin Hbad)
        as [e ->]. reflexivity. }
  unfold ChartGenerator.generate_charts,
    ChartGenerator._create_bar_chart, ChartGenerator._create_pie_chart.
  rewrite !Hnone. cbn [truthy].
  destruct (negb _); cbn [len bind]; [eauto|].
  destruct (length dps <? 2); [eauto|].
  destruct (length dps <=? 6); eauto.
Qed.

(** X11: [generate_charts] raises exactly on a truthy argument that has no
    length (a non-zero number, [True]): the length test stands outside the
    [try]. *)
Theorem generate_charts_raises (data_points : pyval) :
  (exists e, generate_charts data_points = Raise e) <->
  truthy data_points = true /\ exists e, len data_points = Raise e.
Proof.
  unfold ChartGenerator.generate_charts. split.
  - intros [e H]. destruct (truthy data_points); cbn [negb bind] in H.
    + split; [reflexivity|].
      destruct (len data_points) as [n|e']; [|eauto].
      cbn [bind] in H. destruct (n <? 2); [discriminate|].
      destruct (n <=? 6); discriminate.
    + discriminate.
  - intros [Ht [e He]]. rewrite Ht, He. cbn [negb bind]. eauto.
Qed.

End ChartsMore.

Section DocumentMore.

Variable pdf_pages : str -> result (list (option str)).
Variable pdf_page_tables : str -> result (list (list pyval)).

Lemma join_pages_empty (pages : list (option str)) :
  DocumentProcessor.join_pages pages = [] <-> Forall DocumentProcessor.blank_page pages.
Proof.
  induction pages as [|p pages IH]; simpl.
  - split; [constructor|reflexivity].
  - destruct p as [[|c t]|].
    + rewrite IH. split; intros H.
      * constructor; [right; reflexivity|exact H].
      * inversion H; assumption.
    + split; [discriminate|]. intros H. inversion H as [|? ? [Hb|Hb]]; discriminate.
    + rewrite IH. split; intros H.
      * constructor; [left; reflexivity|exact H].
      * inversion H; assumption.
Qed.

(** X12: the extracted text is empty exactly when reading the file failed or
    no page has text; so a failed extraction and a document without text
    look the same to the caller. *)
Theorem extract_text_empty (file_path : str) :
  DocumentProcessor.extract_text_from_pdf pdf_pages file_path = [] <->
  (exists e, pdf_pages file_path = Raise e) \/
  (exists pages, pdf_pages file_path = Ok pages /\ Forall DocumentProcessor.blank_page pages).
Proof.
  unfold DocumentProcessor.extract_text_from_pdf.
  destruct (pdf_pages file_path) as [pages|e]; cbn [bind recover].
  - rewrite join_pages_empty. split.
    + intros H. right. eauto.
    + intros [[e H]|(pages' & H & Hall)]; [discriminate|]. inversion H; subst. exact Hall.
  - split; [eauto|reflexivity].
Qed.

Lemma extend_tables_concat (pages : list (list pyval)) (tables : list pyval) :
  DocumentProcessor.extend_tables tables pages = tables ++ concat pages.
Proof.
  revert tables. induction pages as [|p pages IH]; intros tables; simpl.
  - symmetry. apply app_nil_r.
  - destruct p as [|t p]; [apply IH|]. rewrite IH, <- app_assoc. reflexivity.
Qed.

(** X13: text extraction joins the pages in order, so the text of a file is
    the text of its first pages followed by the text of the rest; table
    extraction returns the tables of all pages in page order. *)
Theorem extraction_in_page_order (pages rest : list (option str)) (file_path : str) :
  DocumentProcessor.join_pages (pages ++ rest)
  = DocumentProcessor.join_pages pages ++ DocumentProcessor.join_pages rest /\
  (forall tables,
     pdf_page_tables file_path = Ok tables ->
     DocumentProcessor.extract_tables_from_pdf pdf_page_tables file_path
     = concat tables).
Proof.
  split.
  - induction pages as [|p pages IH]; simpl; [reflexivity|].
    destruct p as [[|c t]|]; try exact IH.
    rewrite IH. simpl. rewrite <- app_assoc. reflexivity.
  - intros tables H. unfold DocumentProcessor.extract_tables_from_pdf.
    rewrite H. cbn [bind recover]. apply extend_tables_concat.
Qed.

End DocumentMore.

Lemma generate_charts_result_witness :
  exists charts attempts,
    ChartGenerator.generate_charts demo_to_image two_points = Ok (charts, attempts) /\
    exists bars pies,
      charts = bars ++ pies /\
      (bars = [] \/ exists image, bars = [ChartGenerator.rendered ChartGenerator.Bar image]) /\
      (pies = [] \/ exists image, pies = [ChartGenerator.rendered ChartGenerator.Pie image]).
Proof.
  eexists. eexists. split; [vm_compute; reflexivity|].
  eapply (generate_charts_result demo_to_image two_points).
  vm_compute. reflexivity.
Defined.

Lemma generate_charts_malformed_point_witness :
  In (PInt 7) [PDict [ (py "label", PStr (py "2023")); (py "value", PInt 3) ]; PInt 7] /\
  exists attempts,
    ChartGenerator.generate_charts demo_to_image
      (PList [PDict [ (py "label", PStr (py "2023")); (py "value", PInt 3) ]; PInt 7])
    = Ok ([], attempts).
Proof.
  split; [simpl; auto|].
  apply (generate_charts_malformed_point demo_to_image
           [PDict [ (py "label", PStr (py "2023")); (py "value", PInt 3) ]; PInt 7]
           (PInt 7)).
  - simpl. auto.
  - left. exists TypeError. reflexivity.
Defined.

(** ** The layout of the PDF *)

Lemma lstrip_empty (s : str) : lstrip s = [] <-> forallb isspace s = true.
Proof.
  induction s as [|c s IH]; simpl; [tauto|].
  destruct (isspace c); simpl; [exact IH|]. split; discriminate.
Qed.

Lemma lstrip_blank (s : str) : forallb isspace (lstrip s) = true -> lstrip s = [].
Proof.
  induction s as [|c s IH]; simpl; [reflexivity|].
  destruct (isspace c) eqn:E; [exact IH|]. simpl. rewrite E. discriminate.
Qed.

Lemma forallb_rev {A} (f : A -> bool) (l : list A) : forallb f (rev l) = forallb f l.
Proof.
  induction l as [|a l IH]; simpl; [reflexivity|].
  rewrite forallb_app, IH. simpl. rewrite andb_true_r. apply andb_comm.
Qed.

(** [strip] leaves nothing exactly of the strings made of white space. *)
Lemma strip_empty (s : str) : strip s = [] <-> forallb isspace s = true.
Proof.
  unfold strip. split.
  - intros H. apply (f_equal (@rev char)) in H. rewrite rev_involutive in H.
    simpl in H. apply lstrip_empty in H. rewrite forallb_rev in H.
    apply lstrip_blank in H. apply lstrip_empty. exact H.
  - intros H. apply lstrip_empty in H. rewrite H. reflexivity.
Qed.

Section AssemblerMore.

Variable repr : pyval -> str.
Variable fpdf : document -> pdf_op -> result unit.
Variable b64decode : pyval -> result (list N).
Variable write_temp_png : list N -> result str.
Variable unlink : str -> result unit.
Variable mktemp_pdf : str.
Variable output : document -> str -> result unit.

Local Abbreviation emit := (ReportGenerator.emit fpdf).
Local Abbreviation bullets := (ReportGenerator.bullets repr fpdf).
Local Abbreviation add_chart := (ReportGenerator.add_chart fpdf b64decode write_temp_png unlink).
Local Abbreviation generate_pdf :=
  (ReportGenerator.generate_pdf repr fpdf b64decode write_temp_png unlink mktemp_pdf output).
Local Abbreviation chart_ops := (ReportGenerator.chart_ops write_temp_png).

Lemma emit_inv (doc doc' : document) (op : pdf_op) :
  emit doc op = Ok doc' -> doc' = doc ++ [op].
Proof.
  unfold ReportGenerator.emit. destruct (fpdf doc op); simpl; [|discriminate].
  intros H; inversion H; reflexivity.
Qed.

Lemma bullets_inv (items : list pyval) (h : Z) (doc doc' : document) :
  bullets doc h items = Ok doc' -> doc' = doc ++ map (bullet repr h) items.
Proof.
  revert doc. induction items as [|x items IH]; simpl; intros doc H.
  - inversion H. symmetry. apply app_nil_r.
  - bind_ok H. apply emit_inv in E. subst x0. apply IH in H.
    rewrite H, <- app_assoc. reflexivity.
Qed.

Lemma images_app (a b : document) : images (a ++ b) = images a ++ images b.
Proof. apply flat_map_app. Qed.

Lemma paragraphs_app (a b : document) : paragraphs (a ++ b) = paragraphs a ++ paragraphs b.
Proof. apply flat_map_app. Qed.

Lemma title_cells_app (a b : document) : title_cells (a ++ b) = title_cells a ++ title_cells b.
Proof. apply filter_app. Qed.

Lemma chart_ops_app (n m : nat) (a b : document) :
  chart_ops n a -> chart_ops m b -> chart_ops (n + m) (a ++ b).
Proof.
  intros (Ha1 & Ha2 & Ha3 & Ha4 & Ha5) (Hb1 & Hb2 & Hb3 & Hb4 & Hb5).
  unfold ReportGenerator.chart_ops.
  rewrite title_cells_app, paragraphs_app, images_app, length_app.
  unfold headings in *. rewrite filter_app, Ha1, Ha2, Ha3, Hb1, Hb2, Hb3.
  repeat split; [lia|]. apply Forall_app. split; assumption.
Qed.

Lemma add_chart_ops (doc : document) (chart : pyval) :
  exists ops, add_chart doc chart = doc ++ ops /\ chart_ops 1 ops.
Proof.
  assert (Hnil : chart_ops 1 []).
  { unfold ReportGenerator.chart_ops. simpl. repeat split; [lia|constructor]. }
  unfold ReportGenerator.add_chart.
  destruct (bind _ _) as [[|b img]|];
    try (exists []; split; [symmetry; apply app_nil_r|exact Hnil]).
  destruct (write_temp_png (b :: img)) as [tmp|] eqn:Hw;
    try (exists []; split; [symmetry; apply app_nil_r|exact Hnil]).
  assert (Himg : forall rest, rest = [] \/ rest = [Ln 5] -> chart_ops 1 (Image tmp :: rest)).
  { intros rest [->| ->]; unfold ReportGenerator.chart_ops; simpl;
      (repeat split; [lia|]);
      (constructor; [exists (b :: img); split; [discriminate|exact Hw]|constructor]). }
  destruct (emit doc _) as [doc1|] eqn:E1;
    try (exists []; split; [symmetry; apply app_nil_r|exact Hnil]).
  apply emit_inv in E1. subst doc1.
  destruct (emit _ (Ln 5)) as [doc2|] eqn:E2.
  - apply emit_inv in E2. subst doc2.
    exists [Image tmp; Ln 5]. split; [|apply Himg; auto].
    destruct (unlink tmp); rewrite <- app_assoc; reflexivity.
  - exists [Image tmp]. split; [reflexivity|apply Himg; auto].
Qed.

Lemma fold_add_chart_ops (charts : list pyval) (doc : document) :
  exists ops, fold_left add_chart charts doc = doc ++ ops /\ chart_ops (length charts) ops.
Proof.
  revert doc. induction charts as [|c charts IH]; simpl; intros doc.
  - exists []. split; [symmetry; apply app_nil_r|].
    unfold ReportGenerator.chart_ops. simpl. repeat split; [lia|constructor].
  - destruct (add_chart_ops doc c) as (ops1 & -> & H1).
    destruct (IH (doc ++ ops1)) as (ops2 & -> & H2).
    exists (ops1 ++ ops2). split; [rewrite app_assoc; reflexivity|].
    apply (chart_ops_app 1 (length charts)); assumption.
Qed.

Ltac norm_app := repeat first [rewrite <- !app_assoc | progress cbn [app]].

Ltac emit_inv_step H :=
  match type of H with
  | bind (ReportGenerator.emit _ _ _) _ = Ok _ =>
      let doc := fresh "doc" in
      let E := fresh "E" in
      destruct (ReportGenerator.emit _ _ _) as [doc|] eqn:E in H;
      cbn [bind] in H; [apply emit_inv in E; subst doc|discriminate H]
  | bind (ReportGenerator.bullets _ _ _ _ _) _ = Ok _ =>
      let doc := fresh "doc" in
      let E := fresh "E" in
      destruct (ReportGenerator.bullets _ _ _ _ _) as [doc|] eqn:E in H;
      cbn [bind] in H; [apply bullets_inv in E; subst doc|discriminate H]
  | bind _ _ = Ok _ => bind_ok H
  end.

(** The document [generate_pdf] writes, call by call. *)
Lemma generate_pdf_document (report_data charts : pyval) (path : str) (doc : document) :
  generate_pdf report_data charts = Ok (path, doc) ->
  exists title_field title summary key_findings findings analysis chart_part
         recommendations recs citations refs_part,
    path = mktemp_pdf /\
    get report_data (py "title") (PStr (py "Report")) = Ok title_field /\
    slice_to (safe_text repr title_field default_text) 80 = Ok title /\
    get report_data (py "executive_summary")
      (PStr (py "No executive summary available.")) = Ok summary /\
    get report_data (py "key_findings") (PList []) = Ok key_findings /\
    iter (if negb (truthy key_findings)
          then PList [PStr (py "No key findings available.")] else key_findings)
      = Ok findings /\
    get report_data (py "detailed_analysis")
      (PStr (py "No detailed analysis available.")) = Ok analysis /\
    get report_data (py "recommendations") (PList []) = Ok recommendations /\
    iter (if negb (truthy recommendations)
          then PList [PStr (py "No recommendations available.")] else recommendations)
      = Ok recs /\
    get report_data (py "citations") (PList []) = Ok citations /\
    (if truthy charts
     then exists cs ops,
            iter charts = Ok cs /\ chart_ops (length cs) ops /\
            chart_part = [AddPage; SetFont (py "Arial") (py "B") 14;
                          heading "4. Data Visualizations"; Ln 5] ++ ops
     else chart_part = []) /\
    (if truthy citations
     then exists cites,
            iter citations = Ok cites /\
            refs_part = [SetFont (py "Arial") (py "B") 12; heading "References";
                         SetFont (py "Arial") [] 9] ++ map (bullet repr 5) cites
     else refs_part = []) /\
    doc =
      [AddPage; SetFont (py "Arial") (py "B") 20; Cell 10 title (py "C"); Ln 10;
       SetFont (py "Arial") (py "B") 14; heading "1. Executive Summary";
       SetFont (py "Arial") [] 11;
       MultiCell 6 (safe_text repr summary default_text); Ln 5;
       SetFont (py "Arial") (py "B") 14; heading "2. Key Findings";
       SetFont (py "Arial") [] 11] ++
      map (bullet repr 6) findings ++
      [Ln 5; SetFont (py "Arial") (py "B") 14; heading "3. Detailed Analysis";
       SetFont (py "Arial") [] 11;
       MultiCell 6 (safe_text repr analysis default_text); Ln 5] ++
      chart_part ++
      [AddPage; SetFont (py "Arial") (py "B") 14; heading "5. Recommendations";
       SetFont (py "Arial") [] 11] ++
      map (bullet repr 6) recs ++ [Ln 5] ++ refs_part.
Proof.
  unfold ReportGenerator.generate_pdf. intros H.
  do 25 emit_inv_step H.
  (* the chart pages *)
  bind_ok H.
  match goal with
  | Hb : (if truthy ?c then _ else Ok ?d) = Ok ?x |- _ =>
      assert (Hcharts : exists part, x = d ++ part /\
                (if truthy c
                 then exists cs ops,
                        iter c = Ok cs /\ chart_ops (length cs) ops /\
                        part = [AddPage; SetFont (py "Arial") (py "B") 14;
                                heading "4. Data Visualizations"; Ln 5] ++ ops
                 else part = []));
      [ destruct (truthy c);
        [ do 5 emit_inv_step Hb; inversion Hb; subst; clear Hb;
          match goal with
          | |- context [fold_left _ ?cs ?d0] =>
              destruct (fold_add_chart_ops cs d0) as (ops & -> & Hops);
              exists ([AddPage; SetFont (py "Arial") (py "B") 14;
                       heading "4. Data Visualizations"; Ln 5] ++ ops);
              split; [norm_app; reflexivity|];
              exists cs, ops; split; [first [assumption|reflexivity]|split; [assumption|reflexivity]]
          end
        | inversion Hb; subst; exists []; split; [symmetry; apply app_nil_r|reflexivity] ]
      | clear Hb; destruct Hcharts as (chart_part & -> & Hcharts) ]
  end.
  do 9 emit_inv_step H.
  bind_ok H.
  match goal with
  | Hb : (if truthy ?c then _ else Ok ?d) = Ok ?x |- _ =>
      assert (Hrefs : exists part, x = d ++ part /\
                (if truthy c
                 then exists cites,
                        iter c = Ok cites /\
                        part = [SetFont (py "Arial") (py "B") 12; heading "References";
                                SetFont (py "Arial") [] 9] ++ map (bullet repr 5) cites
                 else part = []));
      [ destruct (truthy c);
        [ do 4 emit_inv_step Hb; apply bullets_inv in Hb; subst;
          match goal with
          | Hi : iter c = Ok ?cites |- _ =>
              exists ([SetFont (py "Arial") (py "B") 12; heading "References";
                       SetFont (py "Arial") [] 9] ++ map (bullet repr 5) cites);
              split; [norm_app; reflexivity|];
              exists cites; split; [first [assumption|reflexivity]|reflexivity]
          end
        | inversion Hb; subst; exists []; split; [symmetry; apply app_nil_r|reflexivity] ]
      | clear Hb; destruct Hrefs as (refs_part & -> & Hrefs) ]
  end.
  bind_ok H. inversion H; subst path doc; clear H.
  repeat match goal with
         | Hg : get report_data _ _ = Ok ?v |- _ => revert Hg
         | Hg : slice_to _ _ = Ok ?v |- _ => revert Hg
         | Hg : iter _ = Ok ?v |- _ => revert Hg
         end.
  intros.
  do 6 eexists. exists chart_part. do 3 eexists. exists refs_part.
  repeat match goal with
         | |- _ /\ _ => split
         end; try eassumption; try reflexivity.
  norm_app. reflexivity.
Qed.

Lemma bullets_title_cells (h : Z) (items : list pyval) :
  title_cells (map (bullet repr h) items) = [].
Proof. induction items; simpl; auto. Qed.

Lemma bullets_images (h : Z) (items : list pyval) :
  images (map (bullet repr h) items) = [].
Proof. induction items; simpl; auto. Qed.

Lemma safe_text_not_blank (text : pyval) : not_blank (safe_text repr text default_text).
Proof.
  unfold safe_text, not_blank.
  destruct (negb (truthy text)); cbn [orb].
  - exists (py "N/A"). split; [reflexivity|vm_compute; discriminate].
  - destruct (strip (to_str repr text)) eqn:Hs.
    + exists (py "N/A"). split; [reflexivity|vm_compute; discriminate].
    + eexists. split; [reflexivity|]. rewrite Hs. discriminate.
Qed.

Lemma bullets_not_blank (h : Z) (items : list pyval) :
  Forall not_blank (paragraphs (map (bullet repr h) items)).
Proof.
  induction items as [|x items IH]; simpl; constructor; [|exact IH].
  eexists. split; [reflexivity|]. intros Hs. apply strip_empty in Hs.
  discriminate Hs.
Qed.

(** X14: the document has one centred line, the title: the text
    [safe_text] makes of the report's title (or of "Report"), cut to its
    first 80 characters; the file is written at the temporary path. *)
Theorem generate_pdf_title (report_data charts : pyval) (path : str) (doc : document) :
  generate_pdf report_data charts = Ok (path, doc) ->
  path = mktemp_pdf /\
  exists title_field s,
    get report_data (py "title") (PStr (py "Report")) = Ok title_field /\
    safe_text repr title_field default_text = PStr s /\
    title_cells doc = [Cell 10 (PStr (firstn 80 s)) (py "C")].
Proof.
  intros H. apply generate_pdf_document in H.
  destruct H as (tf & title & summary & kf & findings & analysis & chart_part &
                 rc & recs & citations & refs_part &
                 Hpath & Htf & Htitle & _ & _ & _ & _ & _ & _ & _ & Hcharts & Hrefs & ->).
  split; [exact Hpath|].
  destruct (safe_text_not_blank tf) as (s & Hs & _).
  exists tf, s. split; [exact Htf|]. split; [exact Hs|].
  rewrite Hs in Htitle. cbn [slice_to] in Htitle. inversion Htitle; subst title.
  assert (Hc : title_cells chart_part = []).
  { destruct (truthy charts); [|subst; reflexivity].
    destruct Hcharts as (cs & ops & _ & Hops & ->).
    rewrite title_cells_app. destruct Hops as (-> & _). reflexivity. }
  assert (Hr : title_cells refs_part = []).
  { destruct (truthy citations); [|subst; reflexivity].
    destruct Hrefs as (cites & _ & ->).
    rewrite title_cells_app, bullets_title_cells. reflexivity. }
  repeat rewrite title_cells_app. rewrite !bullets_title_cells, Hc, Hr. reflexivity.
Qed.

(** X15: every paragraph and bullet of the document is a string with a
    visible character: no blank text reaches the PDF body. *)
Theorem generate_pdf_paragraphs_not_blank
  (report_data charts : pyval) (path : str) (doc : document) :
  generate_pdf report_data charts = Ok (path, doc) ->
  Forall not_blank (paragraphs doc).
Proof.
  intros H. apply generate_pdf_document in H.
  destruct H as (tf & title & summary & kf & findings & analysis & chart_part &
                 rc & recs & citations & refs_part &
                 _ & _ & _ & _ & _ & _ & _ & _ & _ & _ & Hcharts & Hrefs & ->).
  assert (Hc : paragraphs chart_part = []).
  { destruct (truthy charts); [|subst; reflexivity].
    destruct Hcharts as (cs & ops & _ & Hops & ->).
    rewrite paragraphs_app. destruct Hops as (_ & -> & _). reflexivity. }
  assert (Hr : Forall not_blank (paragraphs refs_part)).
  { destruct (truthy citations); [|subst; constructor].
    destruct Hrefs as (cites & _ & ->).
    rewrite paragraphs_app. apply Forall_app. split; [constructor|].
    apply bullets_not_blank. }
  repeat rewrite paragraphs_app. rewrite Hc.
  repeat (apply Forall_app; split);
    try apply bullets_not_blank; try exact Hr; try constructor;
    try apply safe_text_not_blank; constructor.
Qed.

(** X16: images are placed only in the chart loop: none without charts,
    at most one per chart otherwise, each a file [write_temp_png] wrote
    from non-empty decoded data. *)
Theorem generate_pdf_images (report_data charts : pyval) (path : str) (doc : document) :
  generate_pdf report_data charts = Ok (path, doc) ->
  (truthy charts = false -> images doc = []) /\
  (forall cs, iter charts = Ok cs -> length (images doc) <= length cs) /\
  Forall (fun p => exists data, data <> [] /\ write_temp_png data = Ok p) (images doc).
Proof.
  intros H. apply generate_pdf_document in H.
  destruct H as (tf & title & summary & kf & findings & analysis & chart_part &
                 rc & recs & citations & refs_part &
                 _ & _ & _ & _ & _ & _ & _ & _ & _ & _ & Hcharts & Hrefs & ->).
  assert (Hr : images refs_part = []).
  { destruct (truthy citations); [|subst; reflexivity].
    destruct Hrefs as (cites & _ & ->).
    rewrite images_app, bullets_images. reflexivity. }
  assert (Hd : images
                 ([AddPage; SetFont (py "Arial") (py "B") 20; Cell 10 title (py "C"); Ln 10;
                   SetFont (py "Arial") (py "B") 14; heading "1. Executive Summary";
                   SetFont (py "Arial") [] 11;
                   MultiCell 6 (safe_text repr summary default_text); Ln 5;
                   SetFont (py "Arial") (py "B") 14; heading "2. Key Findings";
                   SetFont (py "Arial") [] 11] ++
                  map (bullet repr 6) findings ++
                  [Ln 5; SetFont (py "Arial") (py "B") 14; heading "3. Detailed Analysis";
                   SetFont (py "Arial") [] 11;
                   MultiCell 6 (safe_text repr analysis default_text); Ln 5] ++
                  chart_part ++
                  [AddPage; SetFont (py "Arial") (py "B") 14; heading "5. Recommendations";
                   SetFont (py "Arial") [] 11] ++
                  map (bullet repr 6) recs ++ [Ln 5] ++ refs_part)
               = images chart_part).
  { repeat rewrite images_app. rewrite !bullets_images, Hr. simpl.
    apply app_nil_r. }
  rewrite Hd. clear Hd.
  destruct (truthy charts).
  - destruct Hcharts as (cs & ops & Hcs & (_ & _ & _ & Hlen & Hall) & ->).
    rewrite images_app. simpl. split; [discriminate|]. split; [|exact Hall].
    intros cs' Hcs'. rewrite Hcs in Hcs'. inversion Hcs'; subst. exact Hlen.
  - subst chart_part. simpl. split; [reflexivity|]. split; [intros; lia|constructor].
Qed.

(** X17: every item of key_findings gets its bullet, and a field that is
    a string is bulleted character by character; an empty or missing field
    gets the one placeholder bullet. *)
Theorem generate_pdf_bullets (report_data charts key_findings : pyval)
  (path : str) (doc : document) :
  generate_pdf report_data charts = Ok (path, doc) ->
  get report_data (py "key_findings") (PList []) = Ok key_findings ->
  (truthy key_findings = false ->
   In (bullet repr 6 (PStr (py "No key findings available."))) doc) /\
  (forall items x, key_findings = PList items -> In x items ->
   In (bullet repr 6 x) doc) /\
  (forall s c, key_findings = PStr s -> In c s ->
   In (bullet repr 6 (PStr [c])) doc).
Proof.
  intros H Hkf. apply generate_pdf_document in H.
  destruct H as (tf & title & summary & kf & findings & analysis & chart_part &
                 rc & recs & citations & refs_part &
                 _ & _ & _ & _ & Hkf' & Hfindings & _ & _ & _ & _ & _ & _ & ->).
  rewrite Hkf in Hkf'. inversion Hkf'; subst kf; clear Hkf'.
  assert (Hin : forall x, In x findings ->
            In (bullet repr 6 x)
              ([AddPage; SetFont (py "Arial") (py "B") 20; Cell 10 title (py "C"); Ln 10;
                SetFont (py "Arial") (py "B") 14; heading "1. Executive Summary";
                SetFont (py "Arial") [] 11;
                MultiCell 6 (safe_text repr summary default_text); Ln 5;
                SetFont (py "Arial") (py "B") 14; heading "2. Key Findings";
                SetFont (py "Arial") [] 11] ++
               map (bullet repr 6) findings ++
               [Ln 5; SetFont (py "Arial") (py "B") 14; heading "3. Detailed Analysis";
                SetFont (py "Arial") [] 11;
                MultiCell 6 (safe_text repr analysis default_text); Ln 5] ++
               chart_part ++
               [AddPage; SetFont (py "Arial") (py "B") 14; heading "5. Recommendations";
                SetFont (py "Arial") [] 11] ++
               map (bullet repr 6) recs ++ [Ln 5] ++ refs_part)).
  { intros x Hx. apply in_or_app. right. apply in_or_app. left.
    apply in_map. exact Hx. }
  split; [|split].
  - intros Ht. rewrite Ht in Hfindings. cbn [negb iter] in Hfindings.
    inversion Hfindings; subst findings. apply Hin. left. reflexivity.
  - intros items x -> Hx. apply Hin.
    destruct items as [|y items]; [destruct Hx|].
    cbn [truthy negb iter] in Hfindings. inversion Hfindings; subst. exact Hx.
  - intros s c -> Hc. apply Hin.
    destruct s as [|d s]; [destruct Hc|].
    cbn [truthy negb iter] in Hfindings. inversion Hfindings; subst.
    change (In (PStr [c]) (map (fun c => PStr [c]) (d :: s))).
    apply (in_map (fun c => PStr [c])). exact Hc.
Qed.

End AssemblerMore.

Lemma generate_pdf_title_witness :
  exists path doc,
    ReportGenerator.generate_pdf demo_repr demo_fpdf demo_b64decode
      demo_write_temp_png demo_unlink demo_pdf_path demo_output
      full_report one_chart = Ok (path, doc) /\
    path = demo_pdf_path /\
    exists title_field s,
      get full_report (py "title") (PStr (py "Report")) = Ok title_field /\
      safe_text demo_repr title_field default_text = PStr s /\
      title_cells doc = [Cell 10 (PStr (firstn 80 s)) (py "C")].
Proof.
  eexists. eexists. split; [vm_compute; reflexivity|].
  eapply (generate_pdf_title demo_repr demo_fpdf demo_b64decode
           demo_write_temp_png demo_unlink demo_pdf_path demo_output
            full_report one_chart).
  vm_compute. reflexivity.
Defined.

Lemma generate_pdf_paragraphs_not_blank_witness :
  exists path doc,
    ReportGenerator.generate_pdf demo_repr demo_fpdf demo_b64decode
      demo_write_temp_png demo_unlink demo_pdf_path demo_output
      full_report one_chart = Ok (path, doc) /\
    Forall not_blank (paragraphs doc).
Proof.
  eexists. eexists. split; [vm_compute; reflexivity|].
  eapply (generate_pdf_paragraphs_not_blank demo_repr demo_fpdf demo_b64decode
           demo_write_temp_png demo_unlink demo_pdf_path demo_output
            full_report one_chart).
  vm_compute. reflexivity.
Defined.

Lemma generate_pdf_images_witness :
  exists path doc,
    ReportGenerator.generate_pdf demo_repr demo_fpdf demo_b64decode
      demo_write_temp_png demo_unlink demo_pdf_path demo_output
      full_report one_chart = Ok (path, doc) /\
    (truthy one_chart = false -> images doc = []) /\
    (forall cs, iter one_chart = Ok cs -> length (images doc) <= length cs) /\
    Forall (fun p => exists data, data <> [] /\ demo_write_temp_png data = Ok p)
      (images doc).
Proof.
  eexists. eexists. split; [vm_compute; reflexivity|].
  eapply (generate_pdf_images demo_repr demo_fpdf demo_b64decode
           demo_write_temp_png demo_unlink demo_pdf_path demo_output
            full_report one_chart).
  vm_compute. reflexivity.
Defined.

Lemma generate_pdf_bullets_witness :
  exists path doc,
    ReportGenerator.generate_pdf demo_repr demo_fpdf demo_b64decode
      demo_write_temp_png demo_unlink demo_pdf_path demo_output
      string_findings_report (PList []) = Ok (path, doc) /\
    get string_findings_report (py "key_findings") (PList []) = Ok (PStr (py "ab")) /\
    In (bullet demo_repr 6 (PStr (py "a"))) doc /\
    In (bullet demo_repr 6 (PStr (py "b"))) doc.
Proof.
  eexists. eexists. split; [vm_compute; reflexivity|].
  split; [reflexivity|].
  split;
    apply (proj2 (proj2 (generate_pdf_bullets demo_repr demo_fpdf demo_b64decode
           demo_write_temp_png demo_unlink demo_pdf_path demo_output
             string_findings_report (PList []) (PStr (py "ab")) _ _ eq_refl eq_refl))
             (py "ab") _ eq_refl);
    simpl; auto.
Defined.

(** ** The routes *)

Lemma len_iter (v : pyval) (n : nat) : len v = Ok n -> exists l, iter v = Ok l.
Proof. destruct v; simpl; try discriminate; eauto. Qed.

Section AcceptingMore.

Variable repr : pyval -> str.
Variable fpdf : document -> pdf_op -> result unit.
Variable b64decode : pyval -> result (list N).
Variable write_temp_png : list N -> result str.
Variable unlink : str -> result unit.
Variable mktemp_pdf : str.
Variable output : document -> str -> result unit.

Hypothesis fpdf_accepts : forall d op, fpdf d op = Ok tt.
Hypothesis output_succeeds : forall d p, output d p = Ok tt.

Local Abbreviation generate_pdf :=
  (ReportGenerator.generate_pdf repr fpdf b64decode write_temp_png unlink mktemp_pdf output).

(** A field that is absent or iterable can be iterated, also after the
    placeholder took the place of an empty one. *)
Lemma iter_field (fields : list (str * pyval)) (key : str) (placeholder : pyval) :
  (forall v, lookup fields key = Some v -> exists l, iter v = Ok l) ->
  exists l,
    iter (let v := match lookup fields key with Some x => x | None => PList [] end in
          if negb (truthy v) then PList [placeholder] else v) = Ok l.
Proof.
  intros H. destruct (lookup fields key) as [v|]; cbv zeta.
  - destruct (truthy v); cbn [negb]; [apply H; reflexivity|simpl; eauto].
  - simpl. eauto.
Qed.

Ltac emits' :=
  repeat (cbn [bind get]; rewrite (emit_ok fpdf fpdf_accepts)); cbn [bind get].

Ltac bullets_step' :=
  match goal with
  | |- context [ReportGenerator.bullets _ _ ?d ?h ?items] =>
      let d' := fresh "d" in
      destruct (bullets_ok repr fpdf fpdf_accepts items h d) as [d' ->]; cbn [bind]
  end.

(** With a report whose list fields can be iterated (lists, strings) or
    are absent, and a list of charts, [generate_pdf] returns. *)
Lemma generate_pdf_returns_iterable (fields : list (str * pyval)) (charts : list pyval) :
  (forall key v,
     In key [py "key_findings"; py "recommendations"; py "citations"] ->
     lookup fields key = Some v -> exists l, iter v = Ok l) ->
  exists doc, generate_pdf (PDict fields) (PList charts) = Ok (mktemp_pdf, doc).
Proof.
  intros Hiter. unfold ReportGenerator.generate_pdf.
  emits'.
  destruct (safe_text_default_is_str repr
              (match lookup fields (py "title") with
               | Some x => x
               | None => PStr (py "Report")
               end)) as [title ->].
  cbn [slice_to]. emits'.
  destruct (iter_field fields (py "key_findings")
              (PStr (py "No key findings available."))) as [kf Hkf].
  { intros v Hv. apply (Hiter (py "key_findings")); simpl; auto. }
  cbv zeta in Hkf. rewrite Hkf. emits'. bullets_step'. emits'.
  destruct (truthy (PList charts)); emits'; cbn [iter bind].
  all: destruct (iter_field fields (py "recommendations")
                   (PStr (py "No recommendations available."))) as [rc Hrc];
    [ intros v Hv; apply (Hiter (py "recommendations")); simpl; auto | ].
  all: cbv zeta in Hrc; rewrite Hrc; emits'; bullets_step'; emits'.
  all: destruct (lookup fields (py "citations")) as [v|] eqn:Hc;
    [ destruct (Hiter (py "citations") v) as [l Hl]; [simpl; auto | exact Hc |];
      destruct (truthy v); emits'; [rewrite Hl; cbn [bind]; bullets_step'|]
    | cbn [truthy] ].
  all: cbn [bind]; rewrite output_succeeds; cbn [bind]; eexists; reflexivity.
Qed.

End AcceptingMore.

Lemma well_formed_report_iterable (r : pyval) :
  well_formed_report r ->
  exists fields,
    r = PDict fields /\
    forall key v,
      In key [py "key_findings"; py "recommendations"; py "citations"] ->
      lookup fields key = Some v -> exists l, iter v = Ok l.
Proof.
  intros (es & kf & ch & rc & -> & (n1 & Hkf & _) & _ & (n3 & Hrc & _)).
  eexists. split; [reflexivity|].
  intros key v Hkey Hv. simpl in Hkey.
  destruct Hkey as [<- | [<- | [<- | []]]]; vm_compute in Hv; inversion Hv; subst.
  - eapply len_iter; eassumption.
  - eapply len_iter; eassumption.
Qed.

Lemma basename_no_slash (name : str) :
  existsb (N.eqb 47) name = false -> App.basename name = name.
Proof.
  destruct name as [|c name]; [reflexivity|]. cbn [existsb App.basename].
  intros H. apply orb_false_elim in H. destruct H as [Hc Hn].
  rewrite N.eqb_sym in Hc. rewrite Hc, Hn. reflexivity.
Qed.

Lemma basename_after_slash (p name : str) :
  existsb (N.eqb 47) name = false -> App.basename (p ++ 47%N :: name) = name.
Proof.
  intros Hn. induction p as [|c p IH].
  - cbn [app App.basename]. rewrite N.eqb_refl. apply basename_no_slash. exact Hn.
  - cbn [app App.basename].
    destruct (c =? 47)%N; [exact IH|].
    rewrite existsb_app. cbn [existsb]. rewrite N.eqb_refl, orb_true_r.
    exact IH.
Qed.

Lemma basename_path_join (dir name : str) :
  existsb (N.eqb 47) name = false -> App.basename (App.path_join dir name) = name.
Proof.
  intros Hn. unfold App.path_join.
  assert (Hhead : match name with 47%N :: _ => False | _ => True end).
  { destruct name as [|c name]; [exact I|]. cbn [existsb] in Hn.
    apply orb_false_elim in Hn. destruct Hn as [Hc _].
    destruct c as [|p]; [exact I|].
    do 6 (destruct p as [p|p|]; try exact I). discriminate Hc. }
  assert (Hjoin : App.basename
                    match rev dir with
                    | [] => name
                    | 47%N :: _ => dir ++ name
                    | _ => dir ++ [47%N] ++ name
                    end = name).
  { destruct (rev dir) as [|c r] eqn:Hr; [apply basename_no_slash; exact Hn|].
    assert (Hdir : dir = rev r ++ [c]).
    { rewrite <- (rev_involutive dir), Hr. reflexivity. }
    assert (Hsep : App.basename (dir ++ [47%N] ++ name) = name)
      by (apply basename_after_slash; exact Hn).
    destruct (N.eq_dec c 47) as [->|Hc].
    - rewrite Hdir, <- app_assoc. apply basename_after_slash. exact Hn.
    - destruct c as [|p]; [exact Hsep|].
      do 6 (destruct p as [p|p|]; try exact Hsep). contradiction Hc. reflexivity. }
  destruct name as [|c name]; [exact Hjoin|].
  destruct c as [|p]; [exact Hjoin|].
  do 6 (destruct p as [p|p|]; try exact Hjoin). destruct Hhead.
Qed.

(** X18: the name under which a file of the temporary directory is
    advertised leads the download route back to that file: for a name
    without a slash, the base name of the joined path is the name, and
    [download_report] on it sends the joined path as report_<name>. *)
Theorem download_finds_written_file
  (tempdir name : str) (path_exists : str -> bool)
  (send_file : str -> str -> result unit) (describe_exn : exn -> str) :
  existsb (N.eqb 47) name = false ->
  path_exists (App.path_join tempdir name) = true ->
  send_file (App.path_join tempdir name) (py "report_" ++ name) = Ok tt ->
  App.basename (App.path_join tempdir name) = name /\
  App.download_report tempdir path_exists send_file describe_exn
    (App.basename (App.path_join tempdir name))
  = App.SendFile (App.path_join tempdir name) (py "report_" ++ name).
Proof.
  intros Hn He Hs. split; [apply basename_path_join; exact Hn|].
  rewrite basename_path_join by exact Hn.
  unfold App.download_report. rewrite He. cbn [negb]. rewrite Hs. reflexivity.
Qed.

Section Handler.

Variable w : App.world.

Lemma document_stage_fails (f : App.upload) :
  (exists e, App.file_save w f (App.path_join (App.gettempdir w) (App.filename f)) = Raise e) \/
  (exists e, App.pdf_pages w (App.path_join (App.gettempdir w) (App.filename f)) = Raise e) \/
  (exists e, App.os_remove w (App.path_join (App.gettempdir w) (App.filename f)) = Raise e) ->
  App.document_stage w f = [].
Proof.
  unfold App.document_stage, DocumentProcessor.extract_text_from_pdf.
  intros [[e ->]|[[e ->]|[e ->]]]; cbn [bind recover].
  - reflexivity.
  - destruct (App.file_save w f _); cbn [bind recover]; [|reflexivity].
    destruct (App.os_remove w _); reflexivity.
  - destruct (App.file_save w f _); reflexivity.
Qed.

Lemma pipeline_reply (topic : str) (file : option App.upload) :
  match file with
  | Some f => App.filename f = [] \/ App.document_stage w f = []
  | None => True
  end ->
  fst (App.pipeline w topic file) = fst (App.pipeline w topic None).
Proof.
  intros Hfile. unfold App.pipeline.
  set (pre := match file with Some f => _ | None => _ end).
  assert (Hpre : fst pre = []).
  { subst pre. destruct file as [f|]; [|reflexivity].
    destruct (App.filename f); [reflexivity|].
    destruct Hfile as [Hf|Hf]; [discriminate|exact Hf]. }
  destruct pre as [document_text log0]. simpl in Hpre. subst document_text.
  destruct (bind _ _) as [r|e]; [|reflexivity].
  destruct (get r (py "data_points") (PList [])) as [dp|e'];
    (destruct (App.report_generate_pdf w r _) as [[pdf_path doc]|e'']; [|reflexivity]);
    destruct (len _); reflexivity.
Qed.

(** The reply of the pipeline is one of three: the synthesizer raised,
    the assembler raised, or a reply with status 200. *)
Lemma pipeline_cases (topic : str) (file : option App.upload) :
  (exists e, fst (App.pipeline w topic file)
             = App.failure 500 (py "Failed to generate report: " ++ App.describe w e)) \/
  (exists e, fst (App.pipeline w topic file)
             = App.failure 500 (py "Failed to generate PDF: " ++ App.describe w e)) \/
  (exists r items doc,
     fst (App.pipeline w topic file)
     = {| App.status := 200;
          App.body := App.success_body r 0 (App.basename (App.mktemp_pdf w)) (length items) |} /\
     well_formed_report r /\
     App.web_search_search w topic 5 = PList items /\
     App.report_generate_pdf w r (PList []) = Ok (App.mktemp_pdf w, doc)).
Proof.
  unfold App.pipeline.
  set (pre := match file with Some f => _ | None => _ end).
  destruct pre as [document_text log0].
  destruct (search_items (App.serpapi_api_key w) (App.get_dict w) topic 5)
    as (items & Hitems & _).
  change (WebSearchService.search (App.serpapi_api_key w) (App.get_dict w) topic 5)
    with (App.web_search_search w topic 5) in Hitems.
  rewrite Hitems. cbn [len].
  destruct (App.ai_generate_report_structure w topic document_text (PList items))
    as [r|e] eqn:Hr; cbn [bind]; [|left; exists e; reflexivity].
  pose proof Hr as Hwf. apply generate_report_structure_well_formed in Hwf.
  destruct (well_formed_keys r Hwf) as (_ & _ & Hget & Htruthy).
  rewrite Htruthy. cbn [negb]. cbv iota beta. rewrite Hget.
  change (App.chart_generate_charts w (PList [])) with
    (@Ok (list pyval * list ChartGenerator.chart_kind) ([], [])).
  cbv iota beta.
  destruct (App.report_generate_pdf w r (PList [])) as [[pdf_path doc]|e] eqn:Hpdf;
    [|right; left; exists e; reflexivity].
  right. right. exists r, items, doc.
  assert (Hpath : pdf_path = App.mktemp_pdf w).
  { unfold App.report_generate_pdf in Hpdf.
    apply generate_pdf_document in Hpdf.
    destruct Hpdf as (? & ? & ? & ? & ? & ? & ? & ? & ? & ? & ? & Hpath & _).
    exact Hpath. }
  subst pdf_path. repeat split; assumption.
Qed.

End Handler.

(** X19: a request is answered in one of four ways: 204 with an empty body
    to OPTIONS, 400 or 500 with success false and an error message, or
    200 with success true, a report with the four keys and bounded lists,
    charts_count 0, the download URL of the written file and the number
    of search results. *)
Theorem generate_report_response (w : App.world) (req : App.request) :
  fst (App.generate_report w req) = {| App.status := 204; App.body := PStr [] |} \/
  (exists code message,
     (code = 400%Z \/ code = 500%Z) /\
     fst (App.generate_report w req) = App.failure code message) \/
  (exists r n,
     fst (App.generate_report w req)
     = {| App.status := 200;
          App.body := App.success_body r 0 (App.basename (App.mktemp_pdf w)) n |} /\
     well_formed_report r).
Proof.
  unfold App.generate_report.
  destruct (str_eqb _ _); [left; reflexivity|]. right.
  destruct (App.form_topic req) as [[|c topic]|];
    try (left; exists 400%Z, (py "Topic is required"); split; [auto|reflexivity]).
  destruct (pipeline_cases w (c :: topic) (App.files_document req))
    as [[e He]|[[e He]|(r & items & doc & He & Hwf & _)]].
  - left. eexists. eexists. split; [right; reflexivity|exact He].
  - left. eexists. eexists. split; [right; reflexivity|exact He].
  - right. exists r, (length items). split; assumption.
Qed.

(** X20: an upload that cannot be processed never fails the request: when
    saving the file, reading its pages or removing it raises, the reply is
    the reply to the same request without the upload. *)
Theorem upload_failure_is_ignored (w : App.world) (req : App.request) (f : App.upload) :
  App.files_document req = Some f ->
  (exists e, App.file_save w f (App.path_join (App.gettempdir w) (App.filename f)) = Raise e) \/
  (exists e, App.pdf_pages w (App.path_join (App.gettempdir w) (App.filename f)) = Raise e) \/
  (exists e, App.os_remove w (App.path_join (App.gettempdir w) (App.filename f)) = Raise e) ->
  fst (App.generate_report w req) = fst (App.generate_report w (App.without_document req)).
Proof.
  intros Hf Hfail. unfold App.generate_report, App.without_document. cbn [App.method App.form_topic App.files_document].
  destruct (str_eqb _ _); [reflexivity|].
  destruct (App.form_topic req) as [[|c topic]|]; try reflexivity.
  rewrite Hf. apply pipeline_reply. right. apply document_stage_fails. exact Hfail.
Qed.

(** X21: the service answers whatever the remote services do: when the two
    placeholder plots render, fpdf carries out every call and the file can
    be written, every request with a topic gets status 200, with or
    without a model token, a search key or an upload. *)
Theorem generate_report_answers (w : App.world) (req : App.request) (c : char) (topic : str) :
  (forall title, exists png, App.savefig_b64 w title AIProcessor.default_data = Ok png) ->
  (forall d op, App.fpdf w d op = Ok tt) ->
  (forall d p, App.output w d p = Ok tt) ->
  str_eqb (App.method req) (py "OPTIONS") = false ->
  App.form_topic req = Some (c :: topic) ->
  exists r n,
    fst (App.generate_report w req)
    = {| App.status := 200;
         App.body := App.success_body r 0 (App.basename (App.mktemp_pdf w)) n |}.
Proof.
  intros Hplot Hfpdf Hout Hmethod Htopic.
  unfold App.generate_report. rewrite Hmethod, Htopic.
  unfold App.pipeline.
  set (pre := match App.files_document req with Some f => _ | None => _ end).
  destruct pre as [document_text log0].
  destruct (search_items (App.serpapi_api_key w) (App.get_dict w) (c :: topic) 5)
    as (items & Hitems & Hall).
  change (WebSearchService.search (App.serpapi_api_key w) (App.get_dict w) (c :: topic) 5)
    with (App.web_search_search w (c :: topic) 5) in Hitems.
  rewrite Hitems. cbn [len].
  assert (Hdicts : Forall is_dict items).
  { eapply Forall_impl; [|exact Hall]. cbv beta. tauto. }
  destruct (App.ai_generate_report_structure w (c :: topic) document_text (PList items))
    as [r|e] eqn:Hr; cbn [bind].
  - pose proof Hr as Hwf. apply generate_report_structure_well_formed in Hwf.
    destruct (well_formed_keys r Hwf) as (_ & _ & Hget & Htruthy).
    rewrite Htruthy. cbn [negb]. cbv iota beta. rewrite Hget.
    change (App.chart_generate_charts w (PList [])) with
      (@Ok (list pyval * list ChartGenerator.chart_kind) ([], [])).
    cbv iota beta.
    destruct (well_formed_report_iterable r Hwf) as (fields & -> & Hiter).
    destruct (generate_pdf_returns_iterable (App.repr w) (App.fpdf w) (App.b64decode w)
                (App.write_temp_png w) (App.unlink w) (App.mktemp_pdf w) (App.output w)
                Hfpdf Hout fields [] Hiter) as [doc Hdoc].
    unfold App.report_generate_pdf. rewrite Hdoc.
    eexists. exists (length items). reflexivity.
  - exfalso. unfold App.ai_generate_report_structure in Hr.
    apply generate_report_structure_raises in Hr.
    destruct (fallback_returns (App.repr w) (App.savefig_b64 w) (c :: topic) document_text
                items Hdicts (Hplot _) (Hplot _)) as [r Hr'].
    congruence.
Qed.

Lemma download_finds_written_file_witness :
  existsb (N.eqb 47) (py "tmpreport.pdf") = false /\
  App.basename (App.path_join (py "/tmp") (py "tmpreport.pdf")) = py "tmpreport.pdf" /\
  App.download_report (py "/tmp") (fun _ => true) (fun _ _ => Ok tt) (fun _ => py "error")
    (App.basename (App.path_join (py "/tmp") (py "tmpreport.pdf")))
  = App.SendFile (App.path_join (py "/tmp") (py "tmpreport.pdf"))
      (py "report_" ++ py "tmpreport.pdf").
Proof.
  split; [reflexivity|].
  apply (download_finds_written_file (py "/tmp") (py "tmpreport.pdf")
           (fun _ => true) (fun _ _ => Ok tt) (fun _ => py "error"));
    reflexivity.
Defined.

Lemma upload_failure_is_ignored_witness :
  App.files_document post_with_upload = Some scanned_upload /\
  (exists e,
     App.pdf_pages unreadable_world
       (App.path_join (App.gettempdir unreadable_world) (App.filename scanned_upload))
     = Raise e) /\
  fst (App.generate_report unreadable_world post_with_upload)
  = fst (App.generate_report unreadable_world (App.without_document post_with_upload)).
Proof.
  split; [reflexivity|].
  split; [eexists; reflexivity|].
  apply (upload_failure_is_ignored unreadable_world post_with_upload scanned_upload eq_refl).
  right. left. eexists. reflexivity.
Defined.

Lemma generate_report_answers_witness :
  exists r n,
    fst (App.generate_report quiet_world post_solar)
    = {| App.status := 200;
         App.body := App.success_body r 0 (App.basename (App.mktemp_pdf quiet_world)) n |}.
Proof.
  apply (generate_report_answers quiet_world post_solar 115%N (py "olar")).
  - intros title. eexists. reflexivity.
  - intros d op. reflexivity.
  - intros d p. reflexivity.
  - reflexivity.
  - reflexivity.
Defined.
